(** * ClassRoomsController: a shallow embedding of the classroom API

    The controller of [backend/api/controllers/ClassRoomsController.py] is a
    thin layer of ORM queries.  The relational tables are embedded as lists of
    records in insertion order, a query set as the list of rows it selects
    (one entry per selected SQL row, so that joins over a one-to-many relation
    repeat the parent row), and an action as a function from the database (and
    the request) to either a [Response] or a raised exception.  Actions that
    write thread the database explicitly. *)

From Stdlib Require Import List ZArith Bool String Lia.
Import ListNotations.
Local Open Scope Z_scope.

(** ** Models (api.models)

    Only the columns the controller reads or writes are kept.  Primary keys
    are the integer [id] columns; a foreign key stores the key of the row it
    points to. *)

Module User.
Record t := mk {
  id : Z;
  email : string;
  first_name : string;
  last_name : string;
  is_superuser : bool
}.
End User.

Module ClassRoom.
Record t := mk {
  id : Z;
  class_code : string;
  course_name : string;
  sections : string;
  schedule : string
}.
End ClassRoom.

Module ClassMember.
Inductive role_t := TEACHER | STUDENT | GUEST.
Inductive status_t := PENDING | ACCEPTED.

Record t := mk {
  id : Z;
  user_id : Z;
  class_id : Z;
  role : role_t;
  status : status_t
}.

Definition role_eqb (a b : role_t) : bool :=
  match a, b with
  | TEACHER, TEACHER | STUDENT, STUDENT | GUEST, GUEST => true
  | _, _ => false
  end.

Definition status_eqb (a b : status_t) : bool :=
  match a, b with
  | PENDING, PENDING | ACCEPTED, ACCEPTED => true
  | _, _ => false
  end.
End ClassMember.

Module TeamMember.
Inductive role_t := LEADER | MEMBER.
Inductive status_t := PENDING | ACCEPTED.

Record t := mk {
  id : Z;
  class_member_id : Z;
  team_id : Z;
  role : role_t;
  status : status_t
}.

Definition role_eqb (a b : role_t) : bool :=
  match a, b with
  | LEADER, LEADER | MEMBER, MEMBER => true
  | _, _ => false
  end.

Definition status_eqb (a b : status_t) : bool :=
  match a, b with
  | PENDING, PENDING | ACCEPTED, ACCEPTED => true
  | _, _ => false
  end.
End TeamMember.

(** The database: one list per table.  [invited_users] is the through table
    of the many-to-many field [ClassRoom.invited_users], a row being a pair
    (classroom id, user id). *)
Record DB := mkDB {
  users : list User.t;
  class_rooms : list ClassRoom.t;
  class_members : list ClassMember.t;
  team_members : list TeamMember.t;
  invited_users : list (Z * Z)
}.

(** ** Exceptions and results *)

(** The [Exception] subclasses that the modelled code can raise. *)
Inductive exn :=
| ClassRoom_DoesNotExist
| ClassMember_DoesNotExist
| User_DoesNotExist
| MultipleObjectsReturned
| KeyError
| ValueError
| ValidationError
| Http404.

Inductive result (A : Type) :=
| Ok (a : A)
| Raise (e : exn).
Arguments Ok {A} a.
Arguments Raise {A} e.

Definition bind {A B} (c : result A) (k : A -> result B) : result B :=
  match c with
  | Ok a => k a
  | Raise e => Raise e
  end.

Declare Scope result_scope.
Delimit Scope result_scope with result.
Notation "x <- c ;; k" := (bind c (fun x => k))
  (at level 61, c at next level, right associativity) : result_scope.
Local Open Scope result_scope.

(** [try: body except: handlers].  [handlers e] is the response of the first
    [except] clause that matches [e], or [None] when no clause does and the
    exception propagates. *)
Definition try_except {A} (body : result A) (handlers : exn -> option A)
  : result A :=
  match body with
  | Ok a => Ok a
  | Raise e =>
      match handlers e with
      | Some a => Ok a
      | None => Raise e
      end
  end.

(** A [for] loop that builds a list and stops at the first exception. *)
Fixpoint for_each {A B} (f : A -> result B) (l : list A) : result (list B) :=
  match l with
  | [] => Ok []
  | a :: l' =>
      b <- f a ;;
      bs <- for_each f l' ;;
      Ok (b :: bs)
  end.

(** ** Responses *)

Definition HTTP_200_OK : nat := 200.
Definition HTTP_201_CREATED : nat := 201.
Definition HTTP_400_BAD_REQUEST : nat := 400.
Definition HTTP_404_NOT_FOUND : nat := 404.
Definition HTTP_500_INTERNAL_SERVER_ERROR : nat := 500.

(** An element of the [members] list that [list] adds to a classroom. *)
Record Member := mkMember {
  member_id : Z;
  member_first_name : string;
  member_last_name : string;
  member_email : string;
  member_role : ClassMember.role_t;
  member_status : ClassMember.status_t
}.

(** An element of the lists of [leaders] and [nonleaders]. *)
Record TeamEntry := mkTeamEntry {
  class_member_id : Z;
  first_name : string;
  last_name : string;
  teamember_status : option TeamMember.status_t
}.

(** The JSON bodies the controller sends. *)
Inductive Body :=
| Details (s : string)                           (* {'details': s} *)
| Error (s : string)                             (* {'error': s} *)
| ErrorStr (e : exn)                             (* {'error': str(e)} *)
| Message (s : string)                           (* {'message': s} *)
| ClassRoomData (r : ClassRoom.t)                (* a serialized classroom *)
| ClassRoomList (l : list (ClassRoom.t * list Member))
| TeamEntries (l : list TeamEntry)
| Classes (l : list ClassRoom.t).                (* {'classes': [...]} *)

Record Response := mkResponse {
  status_code : nat;
  data : Body
}.

(** ** ORM primitives *)

(** [Model.objects.get(...)] over the rows a filter selected. *)
Definition objects_get {A} (rows : list A) (does_not_exist : exn) : result A :=
  match rows with
  | [] => Raise does_not_exist
  | [r] => Ok r
  | _ :: _ :: _ => Raise MultipleObjectsReturned
  end.

(** Following the foreign key [class_member.user_id] loads the user row. *)
Definition fk_user (db : DB) (uid : Z) : result User.t :=
  objects_get (filter (fun u => User.id u =? uid) (users db)) User_DoesNotExist.

(** Referential integrity of [ClassMember.user_id]: each membership row
    points to exactly one user row. *)
Definition user_fk_ok (db : DB) : bool :=
  forallb (fun m =>
             match filter (fun u => User.id u =? ClassMember.user_id m) (users db) with
             | [_] => true
             | _ => false
             end) (class_members db).

(** The rows of [TeamMember] whose foreign key points to class member [cm]. *)
Definition teammember_set (db : DB) (cm : Z) : list TeamMember.t :=
  filter (fun t => TeamMember.class_member_id t =? cm) (team_members db).

(** LEFT OUTER JOIN of one class member with its team member rows: one NULL
    row when there is none. *)
Definition left_join_teammember (db : DB) (m : ClassMember.t)
  : list (option TeamMember.t) :=
  match teammember_set db (ClassMember.id m) with
  | [] => [None]
  | ts => map Some ts
  end.

Definition isnull {A} (o : option A) : bool :=
  match o with
  | None => true
  | Some _ => false
  end.

Definition annotation_is (o : option TeamMember.status_t) (s : TeamMember.status_t)
  : bool :=
  match o with
  | Some s' => TeamMember.status_eqb s' s
  | None => false
  end.

(** ** The team queries *)

Section TeamQueries.

(** The coercion of the URL keyword argument [pk] to the integer column it
    is compared with (the ORM applies [int(value)] when the lookup is
    built); [None] stands for the [ValueError] it raises. *)
Variable int_of_pk : string -> option Z.

Definition prep_pk (pk : string) : result Z :=
  match int_of_pk pk with
  | Some n => Ok n
  | None => Raise ValueError
  end.

(** The subquery of [nonleaders]:
    [TeamMember.objects.filter(class_member_id_id=OuterRef('pk'),
     status=PENDING).values('status')[:1]]. *)
Definition nonleaders_subquery (db : DB) (m : ClassMember.t)
  : option TeamMember.status_t :=
  hd_error
    (map TeamMember.status
       (filter (fun t => TeamMember.status_eqb (TeamMember.status t) TeamMember.PENDING)
          (teammember_set db (ClassMember.id m)))).

(** The query set of [nonleaders]: filter, annotate, then the filter on
    [teammember__isnull], which joins the team member table ([teammember]
    is the reverse name of the foreign key [TeamMember.class_member_id]).
    The join has no [distinct()]: a selected class member comes once per
    team member row it has. *)
Definition nonleaders_queryset (db : DB) (class_id : Z)
  : list (ClassMember.t * option TeamMember.status_t) :=
  let selected :=
    filter (fun m => (ClassMember.class_id m =? class_id)
                     && ClassMember.role_eqb (ClassMember.role m) ClassMember.STUDENT
                     && ClassMember.status_eqb (ClassMember.status m) ClassMember.ACCEPTED)
      (class_members db) in
  let annotated := map (fun m => (m, nonleaders_subquery db m)) selected in
  let joined :=
    flat_map (fun row => map (fun t => (row, t)) (left_join_teammember db (fst row)))
      annotated in
  map fst
    (filter (fun j => isnull (snd j) || annotation_is (snd (fst j)) TeamMember.PENDING)
       joined).

(** The subquery of [leaders]. *)
Definition leaders_subquery (db : DB) (m : ClassMember.t)
  : option TeamMember.status_t :=
  hd_error
    (map TeamMember.status
       (filter (fun t => TeamMember.role_eqb (TeamMember.role t) TeamMember.LEADER
                         && TeamMember.status_eqb (TeamMember.status t) TeamMember.ACCEPTED)
          (teammember_set db (ClassMember.id m)))).

Definition leaders_queryset (db : DB) (class_id : Z)
  : list (ClassMember.t * option TeamMember.status_t) :=
  let selected :=
    filter (fun m => (ClassMember.class_id m =? class_id)
                     && ClassMember.role_eqb (ClassMember.role m) ClassMember.STUDENT)
      (class_members db) in
  let annotated := map (fun m => (m, leaders_subquery db m)) selected in
  filter (fun row => annotation_is (snd row) TeamMember.ACCEPTED) annotated.

(** The body of the loop shared by both actions. *)
Definition team_entry (db : DB) (row : ClassMember.t * option TeamMember.status_t)
  : result TeamEntry :=
  user <- fk_user db (ClassMember.user_id (fst row)) ;;
  Ok (mkTeamEntry (ClassMember.id (fst row)) (User.first_name user)
        (User.last_name user) (snd row)).

(** The three [except] clauses both actions end with. *)
Definition team_handlers (e : exn) : option Response :=
  match e with
  | ClassRoom_DoesNotExist =>
      Some (mkResponse HTTP_404_NOT_FOUND (Details "Classroom not found"))
  | ClassMember_DoesNotExist =>
      Some (mkResponse HTTP_404_NOT_FOUND (Details "Class member not found"))
  | _ =>
      Some (mkResponse HTTP_500_INTERNAL_SERVER_ERROR (Details "Internal Server Error"))
  end.

Definition nonleaders (db : DB) (pk : string) : result Response :=
  try_except
    (class_id <- prep_pk pk ;;
     none_leaders <- for_each (team_entry db) (nonleaders_queryset db class_id) ;;
     Ok (mkResponse HTTP_200_OK (TeamEntries none_leaders)))
    team_handlers.

Definition leaders (db : DB) (pk : string) : result Response :=
  try_except
    (class_id <- prep_pk pk ;;
     leaders <- for_each (team_entry db) (leaders_queryset db class_id) ;;
     Ok (mkResponse HTTP_200_OK (TeamEntries leaders)))
    team_handlers.

End TeamQueries.


(** ** Listing the classrooms of a user *)

(** [ClassRoom.objects.filter(classmember__user_id=user,
     classmember__status=ACCEPTED)]: the inner join of the classrooms with the
    membership rows, both conditions on the same joined row. *)
Definition list_queryset (db : DB) (user : User.t) : list ClassRoom.t :=
  flat_map
    (fun room =>
       map (fun _ => room)
         (filter (fun m => (ClassMember.class_id m =? ClassRoom.id room)
                           && (ClassMember.user_id m =? User.id user)
                           && ClassMember.status_eqb (ClassMember.status m) ClassMember.ACCEPTED)
            (class_members db)))
    (class_rooms db).

(** One element of the [members] list. *)
Definition member_entry (db : DB) (class_member : ClassMember.t) : result Member :=
  user <- fk_user db (ClassMember.user_id class_member) ;;
  Ok (mkMember (ClassMember.id class_member) (User.first_name user)
        (User.last_name user) (User.email user)
        (ClassMember.role class_member) (ClassMember.status class_member)).

(** [list] (the name is taken by the list type).  The [try] selects the
    query set, with the development fallback to every classroom; the loop
    that follows adds the members of each classroom and is not guarded. *)
Definition list_ (db : DB) (user : User.t) : result Response :=
  queryset <-
    try_except
      (if User.is_superuser user
       then Ok (class_rooms db)
       else Ok (list_queryset db user))
      (fun _ => Some (class_rooms db)) ;;
  serializer_data <-
    for_each
      (fun room =>
         members <-
           for_each (member_entry db)
             (filter (fun m => ClassMember.class_id m =? ClassRoom.id room)
                (class_members db)) ;;
         Ok (room, members))
      queryset ;;
  Ok (mkResponse HTTP_200_OK (ClassRoomList serializer_data)).

(** ** Writes *)

(** The key the database gives to a new row: one more than the greatest key
    in the table. *)
Definition next_pk (ids : list Z) : Z := 1 + fold_right Z.max 0 ids.

Definition set_class_rooms (db : DB) (l : list ClassRoom.t) : DB :=
  mkDB (users db) l (class_members db) (team_members db) (invited_users db).

Definition set_class_members (db : DB) (l : list ClassMember.t) : DB :=
  mkDB (users db) (class_rooms db) l (team_members db) (invited_users db).

Definition set_invited_users (db : DB) (l : list (Z * Z)) : DB :=
  mkDB (users db) (class_rooms db) (class_members db) (team_members db) l.

(** [ClassMember.objects.create(...)]: INSERT, returning the new instance. *)
Definition ClassMember_objects_create (db : DB) (user : User.t)
    (class_room : ClassRoom.t) (role : ClassMember.role_t)
    (status : ClassMember.status_t) : ClassMember.t * DB :=
  let row :=
    ClassMember.mk (next_pk (map ClassMember.id (class_members db)))
      (User.id user) (ClassRoom.id class_room) role status in
  (row, set_class_members db (class_members db ++ [row])).

(** [instance.save()]: UPDATE of the row with the key of the instance when
    there is one, INSERT otherwise. *)
Definition ClassMember_save (db : DB) (m : ClassMember.t) : DB :=
  if existsb (fun x => ClassMember.id x =? ClassMember.id m) (class_members db)
  then set_class_members db
         (map (fun x => if ClassMember.id x =? ClassMember.id m then m else x)
            (class_members db))
  else set_class_members db (class_members db ++ [m]).

Definition ClassRoom_save (db : DB) (r : ClassRoom.t) : DB :=
  if existsb (fun x => ClassRoom.id x =? ClassRoom.id r) (class_rooms db)
  then set_class_rooms db
         (map (fun x => if ClassRoom.id x =? ClassRoom.id r then r else x)
            (class_rooms db))
  else set_class_rooms db (class_rooms db ++ [r]).

(** The body of a create request: the writable fields of a classroom. *)
Record ClassRoomFields := mkFields {
  f_class_code : string;
  f_course_name : string;
  f_sections : string;
  f_schedule : string
}.

Section Create.

(** [ClassRoomSerializer.is_valid], which may consult the database (unique
    fields). *)
Variable is_valid : DB -> ClassRoomFields -> bool.

(** [CreateModelMixin.create]: validate, save, answer 201 with the
    serialized row.  A validation error is raised, and is turned into a 400
    by the framework outside the controller. *)
Definition super_create (db : DB) (request_data : ClassRoomFields)
  : result Response * DB :=
  if is_valid db request_data
  then
    let row :=
      ClassRoom.mk (next_pk (map ClassRoom.id (class_rooms db)))
        (f_class_code request_data) (f_course_name request_data)
        (f_sections request_data) (f_schedule request_data) in
    (Ok (mkResponse HTTP_201_CREATED (ClassRoomData row)),
     set_class_rooms db (class_rooms db ++ [row]))
  else (Raise ValidationError, db).

(** [response.data['id']] *)
Definition response_data_id (response : Response) : result Z :=
  match data response with
  | ClassRoomData r => Ok (ClassRoom.id r)
  | _ => Raise KeyError
  end.

(** [create].  Inside the [try], the two reads that can raise come before
    the writes, so the database at an exception is the one [super().create]
    left. *)
Definition create (db : DB) (user : User.t) (request_data : ClassRoomFields)
  : result Response * DB :=
  match super_create db request_data with
  | (Raise e, db1) => (Raise e, db1)
  | (Ok response, db1) =>
      let attempt :=
        id <- response_data_id response ;;
        new_class <-
          objects_get (filter (fun r => ClassRoom.id r =? id) (class_rooms db1))
            ClassRoom_DoesNotExist ;;
        let (class_member, db2) :=
          ClassMember_objects_create db1 user new_class
            ClassMember.TEACHER ClassMember.ACCEPTED in
        Ok (ClassMember_save db2 class_member) in
      match attempt with
      | Ok db3 => (Ok response, db3)
      | Raise _ =>
          (Ok (mkResponse HTTP_500_INTERNAL_SERVER_ERROR (Details "Internal Server Error")),
           db1)
      end
  end.

End Create.

(** ** Joining *)

(** [ClassMember.objects.filter(user_id=user, class_id__class_code=code)]:
    the membership rows of the user whose classroom carries the code. *)
Definition memberships_by_code (db : DB) (user : User.t) (class_code : string)
  : list ClassMember.t :=
  filter (fun m => (ClassMember.user_id m =? User.id user)
                   && existsb (fun r => (ClassRoom.id r =? ClassMember.class_id m)
                                        && String.eqb (ClassRoom.class_code r) class_code)
                        (class_rooms db))
    (class_members db).

(** [ClassRoom.objects.get(class_code=code)] *)
Definition ClassRoom_get_by_code (db : DB) (class_code : string) : result ClassRoom.t :=
  objects_get
    (filter (fun r => String.eqb (ClassRoom.class_code r) class_code) (class_rooms db))
    ClassRoom_DoesNotExist.

Definition nonempty {A} (l : list A) : bool :=
  match l with
  | [] => false
  | _ :: _ => true
  end.

(** [join].  [data_class_code] is [request.data['class_code']], [None] when
    the key is absent; the subscript is outside the [try]. *)
Definition join (db : DB) (user : User.t) (data_class_code : option string)
  : result Response * DB :=
  match data_class_code with
  | None => (Raise KeyError, db)
  | Some class_code =>
      if nonempty (memberships_by_code db user class_code)
      then (Ok (mkResponse HTTP_200_OK (Details "You already joined the class")), db)
      else
        match ClassRoom_get_by_code db class_code with
        | Ok class_to_join =>
            let (class_member, db1) :=
              ClassMember_objects_create db user class_to_join
                ClassMember.STUDENT ClassMember.PENDING in
            (Ok (mkResponse HTTP_200_OK (Details "Partially joined class")),
             ClassMember_save db1 class_member)
        | Raise ClassRoom_DoesNotExist =>
            (Ok (mkResponse HTTP_400_BAD_REQUEST (Error "Invalid class code")), db)
        | Raise e => (Raise e, db)
        end
  end.

(** Truth value of an optional string: [None] and the empty string are
    false. *)
Definition truthy (s : option string) : bool :=
  match s with
  | None => false
  | Some s' => negb (String.eqb s' "")
  end.

(** The role [join_class_as_guest] picks from
    [request.data.get('user_role', 3)]. *)
Definition guest_role (user_role : option Z) : ClassMember.role_t :=
  let number := match user_role with Some n => n | None => 3 end in
  if number =? 1 then ClassMember.TEACHER
  else if number =? 2 then ClassMember.STUDENT
  else ClassMember.GUEST.

(** [join_class_as_guest].  The last [except] answers 500 with the text of
    the exception it caught. *)
Definition join_class_as_guest (db : DB) (user : User.t)
    (data_class_code : option string) (data_user_role : option Z)
  : result Response * DB :=
  match data_class_code with
  | Some class_code =>
      if negb (truthy data_class_code)
      then (Ok (mkResponse HTTP_400_BAD_REQUEST (Error "Class code is required")), db)
      else
        match hd_error (memberships_by_code db user class_code) with
        | Some _ =>
            (Ok (mkResponse HTTP_200_OK (Details "You have already joined the class")),
             db)
        | None =>
            match ClassRoom_get_by_code db class_code with
            | Ok class_to_join =>
                let role := guest_role data_user_role in
                let (_, db1) :=
                  ClassMember_objects_create db user class_to_join role
                    ClassMember.PENDING in
                (Ok (mkResponse HTTP_200_OK (Details "Partially joined the class")),
                 db1)
            | Raise ClassRoom_DoesNotExist =>
                (Ok (mkResponse HTTP_400_BAD_REQUEST (Error "Invalid class code")), db)
            | Raise e =>
                (Ok (mkResponse HTTP_500_INTERNAL_SERVER_ERROR (ErrorStr e)), db)
            end
        end
  | None =>
      (Ok (mkResponse HTTP_400_BAD_REQUEST (Error "Class code is required")), db)
  end.

(** ** Invitations *)

(** [User.objects.get(email=email)] *)
Definition User_get_by_email (db : DB) (email : string) : result User.t :=
  objects_get (filter (fun u => String.eqb (User.email u) email) (users db))
    User_DoesNotExist.

(** [get_object_or_404(ClassRoom, id=class_id)], [class_id] being
    [request.data.get('classId')]: no row has a null key. *)
Definition get_object_or_404 (db : DB) (class_id : option Z) : result ClassRoom.t :=
  match class_id with
  | None => Raise Http404
  | Some n =>
      match objects_get (filter (fun r => ClassRoom.id r =? n) (class_rooms db))
              ClassRoom_DoesNotExist with
      | Raise ClassRoom_DoesNotExist => Raise Http404
      | other => other
      end
  end.

(** [classroom.invited_users.add(user)]: the through table holds a pair at
    most once. *)
Definition invited_users_add (db : DB) (classroom : ClassRoom.t) (user : User.t) : DB :=
  if existsb (fun p => (fst p =? ClassRoom.id classroom) && (snd p =? User.id user))
       (invited_users db)
  then db
  else set_invited_users db
         (invited_users db ++ [(ClassRoom.id classroom, User.id user)]).

Definition inviteToClass (db : DB) (data_classId : option Z) (data_email : option string)
  : result Response * DB :=
  match data_email with
  | Some email =>
      if negb (truthy data_email)
      then (Ok (mkResponse HTTP_400_BAD_REQUEST (Error "Email is required")), db)
      else
        match get_object_or_404 db data_classId with
        | Raise e => (Raise e, db)
        | Ok classroom =>
            match User_get_by_email db email with
            | Ok user =>
                let db1 := invited_users_add db classroom user in
                let db2 := ClassRoom_save db1 classroom in
                (Ok (mkResponse HTTP_200_OK
                       (Message (String.append email " invited successfully"))),
                 db2)
            | Raise User_DoesNotExist =>
                (Ok (mkResponse HTTP_404_NOT_FOUND (Error "User not found")), db)
            | Raise e => (Raise e, db)
            end
        end
  | None => (Ok (mkResponse HTTP_400_BAD_REQUEST (Error "Email is required")), db)
  end.

(** The ids the [exclude] of [get_invited_classes] tests against:
    [ClassMember.objects.filter(user_id=user, status=ACCEPTED)
       .values_list('class_id', flat=True)]. *)
Definition accepted_class_ids (db : DB) (user : User.t) : list Z :=
  map ClassMember.class_id
    (filter (fun m => (ClassMember.user_id m =? User.id user)
                      && ClassMember.status_eqb (ClassMember.status m) ClassMember.ACCEPTED)
       (class_members db)).

(** [ClassRoom.objects.filter(invited_users=user).exclude(id__in=...)]: the
    join with the through table, then the exclusion. *)
Definition invited_classrooms (db : DB) (user : User.t) : list ClassRoom.t :=
  filter (fun r => negb (existsb (Z.eqb (ClassRoom.id r)) (accepted_class_ids db user)))
    (flat_map
       (fun r =>
          map (fun _ => r)
            (filter (fun p => (fst p =? ClassRoom.id r) && (snd p =? User.id user))
               (invited_users db)))
       (class_rooms db)).

(** [get_invited_classes].  [values(...)] keeps the five columns of the
    classroom record. *)
Definition get_invited_classes (db : DB) (data_email : option string)
  : result Response :=
  match data_email with
  | Some email =>
      if negb (truthy data_email)
      then Ok (mkResponse HTTP_400_BAD_REQUEST (Error "Email parameter is required."))
      else
        match User_get_by_email db email with
        | Ok user =>
            if negb (nonempty (invited_classrooms db user))
            then Ok (mkResponse HTTP_404_NOT_FOUND
                       (Message "No classes found for this user."))
            else Ok (mkResponse HTTP_200_OK (Classes (invited_classrooms db user)))
        | Raise User_DoesNotExist =>
            Ok (mkResponse HTTP_404_NOT_FOUND (Error "User not found."))
        | Raise e => Raise e
        end
  | None => Ok (mkResponse HTTP_400_BAD_REQUEST (Error "Email parameter is required."))
  end.

(** ** Observations and well-formedness used in the statements *)

(** The class member ids an action of [leaders]/[nonleaders] returned. *)
Definition returned_ids (r : result Response) : list Z :=
  match r with
  | Ok (mkResponse _ (TeamEntries l)) => map class_member_id l
  | _ => []
  end.

(** Each class member has at most one team member row. *)
Definition unambiguous (db : DB) : bool :=
  forallb (fun m => (List.length (teammember_set db (ClassMember.id m)) <=? 1)%nat)
    (class_members db).

(** Referential integrity of [ClassMember.class_id]. *)
Definition class_fk_ok (db : DB) : bool :=
  forallb (fun m => existsb (fun r => ClassRoom.id r =? ClassMember.class_id m)
                      (class_rooms db))
    (class_members db).

(** [int()] on a non-empty string of ASCII digits, the instance of the key
    coercion the examples run with. *)
Fixpoint digits (s : string) (acc : Z) : option Z :=
  match s with
  | EmptyString => Some acc
  | String c s' =>
      let n := Z.of_nat (Ascii.nat_of_ascii c) in
      if (48 <=? n) && (n <=? 57) then digits s' (10 * acc + (n - 48)) else None
  end.

Definition int_of_digits (s : string) : option Z :=
  match s with
  | EmptyString => None
  | _ => digits s 0
  end.

(** The specification's wording of the non-leaders, kept apart from the
    query: "most recent" is read as the team member row of the class member
    with the greatest key. *)
Definition most_recent_teammember (db : DB) (cm : Z) : option TeamMember.t :=
  fold_left
    (fun best t =>
       match best with
       | None => Some t
       | Some b => if TeamMember.id b <? TeamMember.id t then Some t else Some b
       end)
    (teammember_set db cm) None.

Definition spec_nonleader (db : DB) (class_id : Z) (m : ClassMember.t) : bool :=
  (ClassMember.class_id m =? class_id)
  && ClassMember.role_eqb (ClassMember.role m) ClassMember.STUDENT
  && ClassMember.status_eqb (ClassMember.status m) ClassMember.ACCEPTED
  && match most_recent_teammember db (ClassMember.id m) with
     | None => true
     | Some t => TeamMember.status_eqb (TeamMember.status t) TeamMember.PENDING
     end.

(** The classes a response of [get_invited_classes] carries. *)
Definition returned_classes (r : result Response) : list ClassRoom.t :=
  match r with
  | Ok (mkResponse _ (Classes l)) => l
  | _ => []
  end.

(** The user already has a membership row for a classroom with the code. *)
Definition already_member (db : DB) (user : User.t) (class_code : string) : Prop :=
  exists m r,
    In m (class_members db) /\ In r (class_rooms db)
    /\ ClassMember.user_id m = User.id user
    /\ ClassMember.class_id m = ClassRoom.id r
    /\ ClassRoom.class_code r = class_code.

(** The membership row a join inserts. *)
Definition joined_row (db : DB) (user : User.t) (room : ClassRoom.t)
    (role : ClassMember.role_t) : ClassMember.t :=
  ClassMember.mk (next_pk (map ClassMember.id (class_members db)))
    (User.id user) (ClassRoom.id room) role ClassMember.PENDING.

(** ** Example databases *)

Definition ana : User.t := User.mk 1 "ana@example.org" "Ana" "Cruz" false.
Definition ben : User.t := User.mk 2 "ben@example.org" "Ben" "Diaz" false.
Definition root : User.t := User.mk 3 "root@example.org" "Root" "Admin" true.
Definition cy : User.t := User.mk 4 "cy@example.org" "Cy" "Egan" false.

Definition room_cs : ClassRoom.t := ClassRoom.mk 1 "CS101" "Programming" "F1" "MWF".
Definition room_ma : ClassRoom.t := ClassRoom.mk 2 "MA201" "Calculus" "G2" "TTh".

(** One accepted student with two team member rows: an older PENDING one
    and a newer ACCEPTED one. *)
Definition db_two_rows : DB :=
  mkDB [ana] [room_cs]
    [ClassMember.mk 10 1 1 ClassMember.STUDENT ClassMember.ACCEPTED]
    [TeamMember.mk 1 10 1 TeamMember.MEMBER TeamMember.PENDING;
     TeamMember.mk 2 10 2 TeamMember.MEMBER TeamMember.ACCEPTED]
    [].

(** Four students of one classroom, each with at most one team member row:
    an accepted team member who is not a leader, a student whose class
    membership is pending, a leader, and an accepted student without a
    team. *)
Definition db_teams : DB :=
  mkDB [ana; ben; root; cy] [room_cs]
    [ClassMember.mk 20 1 1 ClassMember.STUDENT ClassMember.ACCEPTED;
     ClassMember.mk 21 2 1 ClassMember.STUDENT ClassMember.PENDING;
     ClassMember.mk 22 3 1 ClassMember.STUDENT ClassMember.ACCEPTED;
     ClassMember.mk 23 4 1 ClassMember.STUDENT ClassMember.ACCEPTED]
    [TeamMember.mk 1 20 1 TeamMember.MEMBER TeamMember.ACCEPTED;
     TeamMember.mk 2 22 1 TeamMember.LEADER TeamMember.ACCEPTED]
    [].

(** Two classrooms; [ana] teaches the first and has asked to join the
    second, [ben] is invited to both and accepted in the first. *)
Definition db_school : DB :=
  mkDB [ana; ben; root] [room_cs; room_ma]
    [ClassMember.mk 1 1 1 ClassMember.TEACHER ClassMember.ACCEPTED;
     ClassMember.mk 2 1 2 ClassMember.STUDENT ClassMember.PENDING;
     ClassMember.mk 3 2 1 ClassMember.STUDENT ClassMember.ACCEPTED]
    []
    [(1, 2); (2, 2)].

(** A serializer that accepts every body with a class code. *)
Definition needs_class_code (_ : DB) (f : ClassRoomFields) : bool :=
  negb (String.eqb (f_class_code f) "").

(** ** Retrieving one classroom *)

(** The body of a successful [retrieve]: the serialized classroom with the
    two counts the action adds. *)
Record ClassRoomDetail := mkDetail {
  detail_room : ClassRoom.t;
  number_of_students : nat;
  number_of_teams : nat
}.

Definition HTTP_401_UNAUTHORIZED : nat := 401.

Inductive RetrieveResponse :=
| Refused (r : Response)
| Retrieved (status : nat) (d : ClassRoomDetail).

(** [ClassMember.objects.filter(class_id=class_id, role__in=roles,
     status=ACCEPTED, role=STUDENT).count()] with
    [roles = [TEACHER, STUDENT]]. *)
Definition count_students (db : DB) (class_id : Z) : nat :=
  let roles := [ClassMember.TEACHER; ClassMember.STUDENT] in
  List.length
    (filter (fun m => (ClassMember.class_id m =? class_id)
                      && existsb (ClassMember.role_eqb (ClassMember.role m)) roles
                      && ClassMember.status_eqb (ClassMember.status m) ClassMember.ACCEPTED
                      && ClassMember.role_eqb (ClassMember.role m) ClassMember.STUDENT)
       (class_members db)).

(** [TeamMember.objects.filter(class_member_id__class_id=class_id,
     status=ACCEPTED)]: the team member rows joined with the class member
    their foreign key points to. *)
Definition accepted_team_rows (db : DB) (class_id : Z) : list TeamMember.t :=
  flat_map
    (fun t =>
       map (fun _ => t)
         (filter (fun m => (ClassMember.id m =? TeamMember.class_member_id t)
                           && (ClassMember.class_id m =? class_id)
                           && TeamMember.status_eqb (TeamMember.status t) TeamMember.ACCEPTED)
            (class_members db)))
    (team_members db).

(** [.values('team_id').annotate(team_count=Count('team_id'))]: one group
    per team id, with the number of rows in it. *)
Definition values_annotate_count (team_ids : list Z) : list (Z * nat) :=
  map (fun tid => (tid, count_occ Z.eq_dec team_ids tid)) (nodup Z.eq_dec team_ids).

(** [retrieve].  The key is coerced by each query that uses it; only
    [ClassRoom.DoesNotExist] is caught.  [super().retrieve] loads the
    instance again with [get_object_or_404]. *)
Definition retrieve (int_of_pk : string -> option Z) (db : DB) (user : User.t)
    (pk : string) : result RetrieveResponse :=
  early <-
    try_except
      (class_id <- prep_pk int_of_pk pk ;;
       _ <- objects_get (filter (fun r => ClassRoom.id r =? class_id) (class_rooms db))
              ClassRoom_DoesNotExist ;;
       Ok None)
      (fun e =>
         match e with
         | ClassRoom_DoesNotExist =>
             Some (Some (mkResponse HTTP_404_NOT_FOUND (Details "Not Found")))
         | _ => None
         end) ;;
  match early with
  | Some response => Ok (Refused response)
  | None =>
      class_id <- prep_pk int_of_pk pk ;;
      let class_member :=
        filter (fun m => (ClassMember.user_id m =? User.id user)
                         && (ClassMember.class_id m =? class_id))
          (class_members db) in
      if negb (nonempty class_member)
      then Ok (Refused (mkResponse HTTP_401_UNAUTHORIZED
                          (Details "You are not a member of this class")))
      else
        instance <- get_object_or_404 db (Some class_id) ;;
        let teams :=
          values_annotate_count (map TeamMember.team_id (accepted_team_rows db class_id)) in
        Ok (Retrieved HTTP_200_OK
              (mkDetail instance (count_students db class_id) (List.length teams)))
  end.

(** ** Well-formedness of a database *)

(** Primary keys are unique in the two tables the controller inserts
    into. *)
Definition keys_unique (db : DB) : Prop :=
  NoDup (map ClassRoom.id (class_rooms db))
  /\ NoDup (map ClassMember.id (class_members db)).

(** The requesting user is a row of the user table, the only one with its
    key. *)
Definition user_known (db : DB) (user : User.t) : Prop :=
  filter (fun u => User.id u =? User.id user) (users db) = [user].

(** The multiplicity of a class member in the query set of [nonleaders]. *)
Definition nonleaders_multiplicity (db : DB) (m : ClassMember.t) : nat :=
  match teammember_set db (ClassMember.id m) with
  | [] => 1
  | ts =>
      if existsb (fun t => TeamMember.status_eqb (TeamMember.status t) TeamMember.PENDING) ts
      then List.length ts
      else 0
  end.

(** The entries an action of [leaders]/[nonleaders] returned. *)
Definition returned_entries (r : result Response) : list TeamEntry :=
  match r with
  | Ok (mkResponse _ (TeamEntries l)) => l
  | _ => []
  end.

(** Two classrooms that share a class code. *)
Definition db_shared_code : DB :=
  mkDB [ana; ben] [room_cs; ClassRoom.mk 2 "CS101" "Programming" "F2" "TTh"] [] [] [].

(** * Properties *)

(** ** Equality tests *)

Lemma cm_role_eqb_eq a b : ClassMember.role_eqb a b = true <-> a = b.
Proof. destruct a, b; simpl; split; congruence. Qed.

Lemma cm_status_eqb_eq a b : ClassMember.status_eqb a b = true <-> a = b.
Proof. destruct a, b; simpl; split; congruence. Qed.

Lemma tm_role_eqb_eq a b : TeamMember.role_eqb a b = true <-> a = b.
Proof. destruct a, b; simpl; split; congruence. Qed.

Lemma tm_status_eqb_eq a b : TeamMember.status_eqb a b = true <-> a = b.
Proof. destruct a, b; simpl; split; congruence. Qed.

(** Turns boolean tests in the context and the goal into propositions. *)
Ltac unbool :=
  repeat match goal with
    | H : _ && _ = true |- _ => apply andb_true_iff in H; destruct H
    | H : (_ =? _) = true |- _ => apply Z.eqb_eq in H
    | H : ClassMember.role_eqb _ _ = true |- _ => apply cm_role_eqb_eq in H
    | H : ClassMember.status_eqb _ _ = true |- _ => apply cm_status_eqb_eq in H
    | H : TeamMember.role_eqb _ _ = true |- _ => apply tm_role_eqb_eq in H
    | H : TeamMember.status_eqb _ _ = true |- _ => apply tm_status_eqb_eq in H
    | H : String.eqb _ _ = true |- _ => apply String.eqb_eq in H
    end.

Ltac rebool :=
  repeat match goal with
    | |- _ && _ = true => apply andb_true_iff; split
    | |- (_ =? _) = true => apply Z.eqb_eq
    | |- ClassMember.role_eqb _ _ = true => apply cm_role_eqb_eq
    | |- ClassMember.status_eqb _ _ = true => apply cm_status_eqb_eq
    | |- TeamMember.role_eqb _ _ = true => apply tm_role_eqb_eq
    | |- TeamMember.status_eqb _ _ = true => apply tm_status_eqb_eq
    | |- String.eqb _ _ = true => apply String.eqb_eq
    end.

(** ** Team member rows of a class member *)

Lemma in_teammember_set db cm t :
  In t (teammember_set db cm) <->
  In t (team_members db) /\ TeamMember.class_member_id t = cm.
Proof.
  unfold teammember_set. rewrite filter_In, Z.eqb_eq. tauto.
Qed.

Lemma teammember_set_nil db cm :
  teammember_set db cm = [] <->
  (forall t, In t (team_members db) -> TeamMember.class_member_id t <> cm).
Proof.
  split.
  - intros E t Ht Hc.
    assert (In t (teammember_set db cm)) as Hin by (apply in_teammember_set; auto).
    rewrite E in Hin. inversion Hin.
  - intros H. destruct (teammember_set db cm) as [|t l] eqn:E; [reflexivity|].
    assert (In t (teammember_set db cm)) as Hin by (rewrite E; left; reflexivity).
    apply in_teammember_set in Hin. destruct Hin as [Hin Hc].
    exfalso. exact (H t Hin Hc).
Qed.

(** The first status a filtered set of rows yields is the one the filter
    asks for, and there is one exactly when a row passes the filter. *)
Lemma first_status_is (p : TeamMember.t -> bool) (s : TeamMember.status_t) l :
  (forall t, p t = true -> TeamMember.status t = s) ->
  annotation_is (hd_error (map TeamMember.status (filter p l))) s = existsb p l.
Proof.
  intros Hp. induction l as [|t l IH]; simpl; [reflexivity|].
  destruct (p t) eqn:E; simpl.
  - rewrite (Hp t E). destruct s; reflexivity.
  - exact IH.
Qed.

Lemma nonleaders_annotation db m :
  annotation_is (nonleaders_subquery db m) TeamMember.PENDING = true <->
  exists t, In t (team_members db)
            /\ TeamMember.class_member_id t = ClassMember.id m
            /\ TeamMember.status t = TeamMember.PENDING.
Proof.
  unfold nonleaders_subquery.
  rewrite first_status_is by (intros t H; apply tm_status_eqb_eq; exact H).
  rewrite existsb_exists. split.
  - intros [t [Hin Hs]]. apply in_teammember_set in Hin. unbool.
    exists t. tauto.
  - intros [t [Hin [Hc Hs]]]. exists t. split.
    + apply in_teammember_set. auto.
    + rebool. exact Hs.
Qed.

Lemma leaders_annotation db m :
  annotation_is (leaders_subquery db m) TeamMember.ACCEPTED = true <->
  exists t, In t (team_members db)
            /\ TeamMember.class_member_id t = ClassMember.id m
            /\ TeamMember.role t = TeamMember.LEADER
            /\ TeamMember.status t = TeamMember.ACCEPTED.
Proof.
  unfold leaders_subquery.
  rewrite first_status_is by (intros t H; unbool; assumption).
  rewrite existsb_exists. split.
  - intros [t [Hin Hs]]. apply in_teammember_set in Hin. unbool.
    exists t. tauto.
  - intros [t [Hin [Hc [Hr Hs]]]]. exists t. split.
    + apply in_teammember_set. auto.
    + rebool; assumption.
Qed.

(** ** The rows the two query sets select *)

Lemma in_leaders_queryset db cid row :
  In row (leaders_queryset db cid) <->
  In (fst row) (class_members db)
  /\ snd row = leaders_subquery db (fst row)
  /\ ClassMember.class_id (fst row) = cid
  /\ ClassMember.role (fst row) = ClassMember.STUDENT
  /\ exists t, In t (team_members db)
               /\ TeamMember.class_member_id t = ClassMember.id (fst row)
               /\ TeamMember.role t = TeamMember.LEADER
               /\ TeamMember.status t = TeamMember.ACCEPTED.
Proof.
  unfold leaders_queryset. rewrite filter_In, in_map_iff. split.
  - intros [[m [E Hm]] Ha]. subst row. simpl in *.
    apply filter_In in Hm. destruct Hm as [Hm Hc]. unbool.
    apply leaders_annotation in Ha. tauto.
  - intros [Hm [Hs [Hc [Hr Ht]]]]. destruct row as [m s]. simpl in *. subst s.
    split.
    + exists m. split; [reflexivity|]. apply filter_In. split; [exact Hm|].
      rebool; assumption.
    + simpl. apply leaders_annotation. exact Ht.
Qed.

Lemma in_nonleaders_queryset db cid row :
  In row (nonleaders_queryset db cid) <->
  In (fst row) (class_members db)
  /\ snd row = nonleaders_subquery db (fst row)
  /\ ClassMember.class_id (fst row) = cid
  /\ ClassMember.role (fst row) = ClassMember.STUDENT
  /\ ClassMember.status (fst row) = ClassMember.ACCEPTED
  /\ ((forall t, In t (team_members db) ->
                 TeamMember.class_member_id t <> ClassMember.id (fst row))
      \/ exists t, In t (team_members db)
                   /\ TeamMember.class_member_id t = ClassMember.id (fst row)
                   /\ TeamMember.status t = TeamMember.PENDING).
Proof.
  unfold nonleaders_queryset. rewrite in_map_iff. split.
  - intros [[r t] [E Hj]]. simpl in E. subst r.
    apply filter_In in Hj. destruct Hj as [Hj Hf]. simpl in Hf.
    apply in_flat_map in Hj. destruct Hj as [row' [Hrow Hin]].
    apply in_map_iff in Hin. destruct Hin as [t' [E Ht']].
    injection E as E1 E2. subst row' t'.
    apply in_map_iff in Hrow. destruct Hrow as [m [E Hm]]. subst row. simpl in *.
    apply filter_In in Hm. destruct Hm as [Hm Hc]. unbool.
    repeat (split; [auto; fail|]).
    apply orb_true_iff in Hf. destruct Hf as [Hnull | Hann].
    + left. apply teammember_set_nil.
      unfold left_join_teammember in Ht'.
      destruct (teammember_set db (ClassMember.id m)) as [|t0 ts]; [reflexivity|].
      apply in_map_iff in Ht'. destruct Ht' as [x [Ex _]]. subst t. discriminate.
    + right. apply nonleaders_annotation. exact Hann.
  - intros [Hm [Hs [Hc [Hr [Hst Ht]]]]]. destruct row as [m s]. simpl in *. subst s.
    assert (In (m, nonleaders_subquery db m)
              (map (fun m0 => (m0, nonleaders_subquery db m0))
                 (filter (fun m0 => (ClassMember.class_id m0 =? cid)
                     && ClassMember.role_eqb (ClassMember.role m0) ClassMember.STUDENT
                     && ClassMember.status_eqb (ClassMember.status m0) ClassMember.ACCEPTED)
                    (class_members db)))) as Hsel.
    { apply in_map_iff. exists m. split; [reflexivity|].
      apply filter_In. split; [exact Hm|]. rebool; assumption. }
    destruct Ht as [Hnone | Hpend].
    + exists ((m, nonleaders_subquery db m), None). split; [reflexivity|].
      apply filter_In. split; [|reflexivity].
      apply in_flat_map. eexists. split; [exact Hsel|].
      apply in_map_iff. exists None. split; [reflexivity|]. simpl.
      unfold left_join_teammember.
      apply teammember_set_nil in Hnone. rewrite Hnone. left. reflexivity.
    + destruct Hpend as [t [Hin [Hcm Hp]]].
      assert (In t (teammember_set db (ClassMember.id m))) as Hset
          by (apply in_teammember_set; auto).
      exists ((m, nonleaders_subquery db m), Some t). split; [reflexivity|].
      apply filter_In. split.
      * apply in_flat_map. eexists. split; [exact Hsel|].
        apply in_map_iff. exists (Some t). split; [reflexivity|]. simpl.
        unfold left_join_teammember.
        destruct (teammember_set db (ClassMember.id m)) as [|t0 ts];
          [inversion Hset|]. apply in_map. exact Hset.
      * cbn [fst snd isnull].
        apply nonleaders_annotation. exists t. auto.
Qed.

(** ** From the query sets to the responses *)

Lemma fk_user_resolves db m :
  user_fk_ok db = true -> In m (class_members db) ->
  exists u, fk_user db (ClassMember.user_id m) = Ok u.
Proof.
  unfold user_fk_ok, fk_user. intros Hok Hm.
  rewrite forallb_forall in Hok. specialize (Hok m Hm).
  destruct (filter (fun u => User.id u =? ClassMember.user_id m) (users db))
    as [|u [|u' l]]; try discriminate.
  exists u. reflexivity.
Qed.

Lemma team_entries_ok db rows :
  user_fk_ok db = true ->
  (forall row, In row rows -> In (fst row) (class_members db)) ->
  exists entries,
    for_each (team_entry db) rows = Ok entries
    /\ map class_member_id entries = map (fun row => ClassMember.id (fst row)) rows.
Proof.
  intros Hok. induction rows as [|row rows IH]; intros Hin.
  - exists []. split; reflexivity.
  - destruct (fk_user_resolves db (fst row) Hok (Hin row (or_introl eq_refl)))
      as [u Hu].
    destruct IH as [entries [He Hids]].
    { intros r Hr. apply Hin. right. exact Hr. }
    eexists. simpl. unfold team_entry at 1. rewrite Hu. simpl. rewrite He. simpl.
    split; [reflexivity|]. simpl. rewrite Hids. reflexivity.
Qed.

Section TeamProperties.

Variable int_of_pk : string -> option Z.

Lemma leaders_response db pk cid :
  int_of_pk pk = Some cid -> user_fk_ok db = true ->
  exists entries,
    leaders int_of_pk db pk = Ok (mkResponse HTTP_200_OK (TeamEntries entries))
    /\ map class_member_id entries
       = map (fun row => ClassMember.id (fst row)) (leaders_queryset db cid).
Proof.
  intros Hpk Hok.
  destruct (team_entries_ok db (leaders_queryset db cid) Hok) as [entries [He Hids]].
  { intros row Hrow. apply in_leaders_queryset in Hrow. tauto. }
  exists entries. split; [|exact Hids].
  unfold leaders, prep_pk. rewrite Hpk. simpl. rewrite He. reflexivity.
Qed.

Lemma nonleaders_response db pk cid :
  int_of_pk pk = Some cid -> user_fk_ok db = true ->
  exists entries,
    nonleaders int_of_pk db pk = Ok (mkResponse HTTP_200_OK (TeamEntries entries))
    /\ map class_member_id entries
       = map (fun row => ClassMember.id (fst row)) (nonleaders_queryset db cid).
Proof.
  intros Hpk Hok.
  destruct (team_entries_ok db (nonleaders_queryset db cid) Hok) as [entries [He Hids]].
  { intros row Hrow. apply in_nonleaders_queryset in Hrow. tauto. }
  exists entries. split; [|exact Hids].
  unfold nonleaders, prep_pk. rewrite Hpk. simpl. rewrite He. reflexivity.
Qed.

(** The leaders query never repeats a row: its ids are those of the class
    members that pass the test, in table order. *)
Lemma leaders_queryset_ids db cid :
  map (fun row => ClassMember.id (fst row)) (leaders_queryset db cid)
  = map ClassMember.id
      (filter (fun m => (ClassMember.class_id m =? cid)
                        && ClassMember.role_eqb (ClassMember.role m) ClassMember.STUDENT
                        && existsb (fun t => (TeamMember.class_member_id t =? ClassMember.id m)
                                             && TeamMember.role_eqb (TeamMember.role t) TeamMember.LEADER
                                             && TeamMember.status_eqb (TeamMember.status t) TeamMember.ACCEPTED)
                             (team_members db))
         (class_members db)).
Proof.
  unfold leaders_queryset. rewrite filter_map_swap, map_map. simpl.
  induction (class_members db) as [|m l IH]; simpl; [reflexivity|].
  assert (annotation_is (leaders_subquery db m) TeamMember.ACCEPTED
          = existsb (fun t => (TeamMember.class_member_id t =? ClassMember.id m)
                              && TeamMember.role_eqb (TeamMember.role t) TeamMember.LEADER
                              && TeamMember.status_eqb (TeamMember.status t) TeamMember.ACCEPTED)
              (team_members db)) as Ha.
  { apply eq_true_iff_eq. rewrite leaders_annotation, existsb_exists.
    split; intros [t Ht]; exists t.
    - destruct Ht as [? [? [? ?]]]. split; [assumption|]. rebool; assumption.
    - destruct Ht as [? Ht]. unbool. tauto. }
  destruct ((ClassMember.class_id m =? cid)
            && ClassMember.role_eqb (ClassMember.role m) ClassMember.STUDENT); simpl.
  - rewrite Ha.
    destruct (existsb _ (team_members db)); simpl; rewrite IH; reflexivity.
  - exact IH.
Qed.

(** No exception leaves [nonleaders] or [leaders]: every [Exception] meets
    one of the three [except] clauses, which answer 404 or 500 with a fixed
    body. *)
Lemma team_handlers_catch_all e :
  exists r, team_handlers e = Some r
            /\ (status_code r = HTTP_404_NOT_FOUND
                \/ status_code r = HTTP_500_INTERNAL_SERVER_ERROR).
Proof.
  destruct e; simpl; eexists; split; try reflexivity; simpl; auto.
Qed.

Lemma team_actions_never_raise db pk :
  (exists r, nonleaders int_of_pk db pk = Ok r)
  /\ (exists r, leaders int_of_pk db pk = Ok r).
Proof.
  unfold nonleaders, leaders, try_except. split.
  - destruct (bind (prep_pk int_of_pk pk) _) as [r|e]; [eauto|].
    destruct (team_handlers_catch_all e) as [r [Hr _]]. rewrite Hr. eauto.
  - destruct (bind (prep_pk int_of_pk pk) _) as [r|e]; [eauto|].
    destruct (team_handlers_catch_all e) as [r [Hr _]]. rewrite Hr. eauto.
Qed.

(** A key that is not a number is answered with the generic 500. *)
Lemma malformed_pk_is_500 db pk :
  int_of_pk pk = None ->
  nonleaders int_of_pk db pk
  = Ok (mkResponse HTTP_500_INTERNAL_SERVER_ERROR (Details "Internal Server Error"))
  /\ leaders int_of_pk db pk
     = Ok (mkResponse HTTP_500_INTERNAL_SERVER_ERROR (Details "Internal Server Error")).
Proof.
  intros H. unfold nonleaders, leaders, prep_pk. rewrite H. split; reflexivity.
Qed.

Lemma in_leaders_ids db pk cid i :
  int_of_pk pk = Some cid -> user_fk_ok db = true ->
  (In i (returned_ids (leaders int_of_pk db pk)) <->
   exists m, In m (class_members db)
             /\ ClassMember.id m = i
             /\ ClassMember.class_id m = cid
             /\ ClassMember.role m = ClassMember.STUDENT
             /\ exists t, In t (team_members db)
                          /\ TeamMember.class_member_id t = ClassMember.id m
                          /\ TeamMember.role t = TeamMember.LEADER
                          /\ TeamMember.status t = TeamMember.ACCEPTED).
Proof.
  intros Hpk Hok.
  destruct (leaders_response db pk cid Hpk Hok) as [entries [Hr Hids]].
  rewrite Hr. simpl. rewrite Hids, in_map_iff. split.
  - intros [row [Hi Hrow]]. apply in_leaders_queryset in Hrow.
    exists (fst row). tauto.
  - intros [m [Hm [Hi [Hc [Hrole Ht]]]]].
    exists (m, leaders_subquery db m). split; [exact Hi|].
    apply in_leaders_queryset. simpl. tauto.
Qed.

Lemma in_nonleaders_ids db pk cid i :
  int_of_pk pk = Some cid -> user_fk_ok db = true ->
  (In i (returned_ids (nonleaders int_of_pk db pk)) <->
   exists m, In m (class_members db)
             /\ ClassMember.id m = i
             /\ ClassMember.class_id m = cid
             /\ ClassMember.role m = ClassMember.STUDENT
             /\ ClassMember.status m = ClassMember.ACCEPTED
             /\ ((forall t, In t (team_members db) ->
                            TeamMember.class_member_id t <> ClassMember.id m)
                 \/ exists t, In t (team_members db)
                              /\ TeamMember.class_member_id t = ClassMember.id m
                              /\ TeamMember.status t = TeamMember.PENDING)).
Proof.
  intros Hpk Hok.
  destruct (nonleaders_response db pk cid Hpk Hok) as [entries [Hr Hids]].
  rewrite Hr. simpl. rewrite Hids, in_map_iff. split.
  - intros [row [Hi Hrow]]. apply in_nonleaders_queryset in Hrow.
    exists (fst row). tauto.
  - intros [m [Hm [Hi [Hc [Hrole [Hst Ht]]]]]].
    exists (m, nonleaders_subquery db m). split; [exact Hi|].
    apply in_nonleaders_queryset. simpl. tauto.
Qed.

Lemma at_most_one_row {A} (l : list A) a b :
  (List.length l <= 1)%nat -> In a l -> In b l -> a = b.
Proof.
  destruct l as [|x [|y l]]; simpl; intros Hlen Ha Hb.
  - contradiction.
  - destruct Ha as [Ha|[]], Hb as [Hb|[]]. congruence.
  - lia.
Qed.

(** C5: [leaders] answers 200 with exactly the class members of the
    classroom that have role STUDENT and some team member row with role
    LEADER and status ACCEPTED, each once and in table order. *)
Theorem leaders_accepted_team_leaders db pk cid :
  int_of_pk pk = Some cid ->
  user_fk_ok db = true ->
  exists entries,
    leaders int_of_pk db pk = Ok (mkResponse HTTP_200_OK (TeamEntries entries))
    /\ map class_member_id entries
       = map ClassMember.id
           (filter (fun m => (ClassMember.class_id m =? cid)
                             && ClassMember.role_eqb (ClassMember.role m) ClassMember.STUDENT
                             && existsb (fun t => (TeamMember.class_member_id t =? ClassMember.id m)
                                                  && TeamMember.role_eqb (TeamMember.role t) TeamMember.LEADER
                                                  && TeamMember.status_eqb (TeamMember.status t) TeamMember.ACCEPTED)
                                  (team_members db))
              (class_members db))
    /\ forall i,
         In i (map class_member_id entries) <->
         exists m, In m (class_members db)
                   /\ ClassMember.id m = i
                   /\ ClassMember.class_id m = cid
                   /\ ClassMember.role m = ClassMember.STUDENT
                   /\ exists t, In t (team_members db)
                                /\ TeamMember.class_member_id t = ClassMember.id m
                                /\ TeamMember.role t = TeamMember.LEADER
                                /\ TeamMember.status t = TeamMember.ACCEPTED.
Proof.
  intros Hpk Hok.
  destruct (leaders_response db pk cid Hpk Hok) as [entries [Hr Hids]].
  exists entries. split; [exact Hr|]. split.
  - rewrite Hids. apply leaders_queryset_ids.
  - intros i. pose proof (in_leaders_ids db pk cid i Hpk Hok) as H.
    rewrite Hr in H. exact H.
Qed.

(** C4, as the code has it: [nonleaders] answers 200 with exactly the class
    members of the classroom with role STUDENT and status ACCEPTED that have
    no team member row at all or at least one team member row with status
    PENDING, whichever row is the most recent. *)
Theorem nonleaders_teamless_or_pending db pk cid :
  int_of_pk pk = Some cid ->
  user_fk_ok db = true ->
  exists entries,
    nonleaders int_of_pk db pk = Ok (mkResponse HTTP_200_OK (TeamEntries entries))
    /\ forall i,
         In i (map class_member_id entries) <->
         exists m, In m (class_members db)
                   /\ ClassMember.id m = i
                   /\ ClassMember.class_id m = cid
                   /\ ClassMember.role m = ClassMember.STUDENT
                   /\ ClassMember.status m = ClassMember.ACCEPTED
                   /\ ((forall t, In t (team_members db) ->
                                  TeamMember.class_member_id t <> ClassMember.id m)
                       \/ exists t, In t (team_members db)
                                    /\ TeamMember.class_member_id t = ClassMember.id m
                                    /\ TeamMember.status t = TeamMember.PENDING).
Proof.
  intros Hpk Hok.
  destruct (nonleaders_response db pk cid Hpk Hok) as [entries [Hr _]].
  exists entries. split; [exact Hr|].
  intros i. pose proof (in_nonleaders_ids db pk cid i Hpk Hok) as H.
  rewrite Hr in H. exact H.
Qed.

(** C3, as the code has it: when each class member has at most one team
    member row, the lists of [leaders] and [nonleaders] are disjoint and hold
    only STUDENT members of the classroom; a STUDENT member is in one of
    them exactly when it has a LEADER/ACCEPTED team member row, or is
    ACCEPTED with no team member row or a PENDING one.  The other STUDENT
    members are in neither list. *)
Theorem leaders_nonleaders_disjoint db pk cid :
  int_of_pk pk = Some cid ->
  user_fk_ok db = true ->
  unambiguous db = true ->
  (forall i, In i (returned_ids (leaders int_of_pk db pk)) ->
             In i (returned_ids (nonleaders int_of_pk db pk)) -> False)
  /\ (forall i,
        In i (returned_ids (leaders int_of_pk db pk))
        \/ In i (returned_ids (nonleaders int_of_pk db pk)) <->
        exists m, In m (class_members db)
                  /\ ClassMember.id m = i
                  /\ ClassMember.class_id m = cid
                  /\ ClassMember.role m = ClassMember.STUDENT
                  /\ ((exists t, In t (team_members db)
                                 /\ TeamMember.class_member_id t = ClassMember.id m
                                 /\ TeamMember.role t = TeamMember.LEADER
                                 /\ TeamMember.status t = TeamMember.ACCEPTED)
                      \/ (ClassMember.status m = ClassMember.ACCEPTED
                          /\ ((forall t, In t (team_members db) ->
                                         TeamMember.class_member_id t <> ClassMember.id m)
                              \/ exists t, In t (team_members db)
                                           /\ TeamMember.class_member_id t = ClassMember.id m
                                           /\ TeamMember.status t = TeamMember.PENDING)))).
Proof.
  intros Hpk Hok Hun. split.
  - intros i HL HN.
    apply (in_leaders_ids db pk cid i Hpk Hok) in HL.
    apply (in_nonleaders_ids db pk cid i Hpk Hok) in HN.
    destruct HL as [m1 [Hm1 [Hi1 [_ [_ [t1 [Ht1 [Hc1 [_ Hs1]]]]]]]]].
    destruct HN as [m2 [Hm2 [Hi2 [_ [_ [_ [Hnone | [t2 [Ht2 [Hc2 Hs2]]]]]]]]]].
    + apply (Hnone t1 Ht1). congruence.
    + unfold unambiguous in Hun. rewrite forallb_forall in Hun.
      specialize (Hun m1 Hm1). apply Nat.leb_le in Hun.
      assert (t1 = t2) as E.
      { apply (at_most_one_row _ t1 t2 Hun); apply in_teammember_set; split;
          congruence. }
      subst t2. congruence.
  - intros i. split.
    + intros [HL | HN].
      * apply (in_leaders_ids db pk cid i Hpk Hok) in HL.
        destruct HL as [m [Hm [Hi [Hc [Hr Ht]]]]]. exists m. tauto.
      * apply (in_nonleaders_ids db pk cid i Hpk Hok) in HN.
        destruct HN as [m [Hm [Hi [Hc [Hr [Hs Ht]]]]]]. exists m. tauto.
    + intros [m [Hm [Hi [Hc [Hr [Hl | [Hs Hn]]]]]]].
      * left. apply (in_leaders_ids db pk cid i Hpk Hok). exists m. tauto.
      * right. apply (in_nonleaders_ids db pk cid i Hpk Hok). exists m. tauto.
Qed.

(** C8, at the input where the code departs from it: for a classroom that
    does not exist no exception is raised at all, and both actions answer
    200 with an empty list instead of the 404 their handlers hold ready. *)
Theorem missing_classroom_answers_200 db pk cid :
  int_of_pk pk = Some cid ->
  class_fk_ok db = true ->
  (forall r, In r (class_rooms db) -> ClassRoom.id r <> cid) ->
  nonleaders int_of_pk db pk = Ok (mkResponse HTTP_200_OK (TeamEntries []))
  /\ leaders int_of_pk db pk = Ok (mkResponse HTTP_200_OK (TeamEntries [])).
Proof.
  intros Hpk Hfk Hmissing.
  assert (forall m, In m (class_members db) -> ClassMember.class_id m <> cid) as Hno.
  { intros m Hm Hc. unfold class_fk_ok in Hfk. rewrite forallb_forall in Hfk.
    specialize (Hfk m Hm). apply existsb_exists in Hfk.
    destruct Hfk as [r [Hr E]]. unbool. apply (Hmissing r Hr). congruence. }
  assert (nonleaders_queryset db cid = []) as HN.
  { destruct (nonleaders_queryset db cid) as [|row rows] eqn:E; [reflexivity|].
    assert (In row (nonleaders_queryset db cid)) as Hrow by (rewrite E; left; reflexivity).
    apply in_nonleaders_queryset in Hrow. exfalso.
    apply (Hno (fst row)); tauto. }
  assert (leaders_queryset db cid = []) as HL.
  { destruct (leaders_queryset db cid) as [|row rows] eqn:E; [reflexivity|].
    assert (In row (leaders_queryset db cid)) as Hrow by (rewrite E; left; reflexivity).
    apply in_leaders_queryset in Hrow. exfalso.
    apply (Hno (fst row)); tauto. }
  unfold nonleaders, leaders, prep_pk. rewrite Hpk. simpl. rewrite HN, HL.
  split; reflexivity.
Qed.

End TeamProperties.

(** ** The team queries on the example databases *)

Example nonleaders_two_rows :
  nonleaders int_of_digits db_two_rows "1"
  = Ok (mkResponse HTTP_200_OK
          (TeamEntries [mkTeamEntry 10 "Ana" "Cruz" (Some TeamMember.PENDING);
                        mkTeamEntry 10 "Ana" "Cruz" (Some TeamMember.PENDING)])).
Proof. reflexivity. Qed.

Example teams_lists :
  returned_ids (leaders int_of_digits db_teams "1") = [22]
  /\ returned_ids (nonleaders int_of_digits db_teams "1") = [23].
Proof. split; reflexivity. Qed.

Lemma leaders_accepted_team_leaders_witness :
  int_of_digits "1" = Some 1
  /\ user_fk_ok db_teams = true
  /\ exists entries,
       leaders int_of_digits db_teams "1"
       = Ok (mkResponse HTTP_200_OK (TeamEntries entries))
       /\ map class_member_id entries = [22].
Proof.
  split; [reflexivity|]. split; [reflexivity|].
  destruct (leaders_accepted_team_leaders int_of_digits db_teams "1" 1 eq_refl eq_refl)
    as [entries [Hr [Hids _]]].
  exists entries. split; [exact Hr|exact Hids].
Defined.

Lemma nonleaders_teamless_or_pending_witness :
  int_of_digits "1" = Some 1
  /\ user_fk_ok db_two_rows = true
  /\ exists entries,
       nonleaders int_of_digits db_two_rows "1"
       = Ok (mkResponse HTTP_200_OK (TeamEntries entries))
       /\ In 10 (map class_member_id entries).
Proof.
  split; [reflexivity|]. split; [reflexivity|].
  destruct (nonleaders_teamless_or_pending int_of_digits db_two_rows "1" 1 eq_refl eq_refl)
    as [entries [Hr Hiff]].
  exists entries. split; [exact Hr|].
  apply Hiff.
  exists (ClassMember.mk 10 1 1 ClassMember.STUDENT ClassMember.ACCEPTED).
  simpl. repeat (split; [auto; fail|]).
  right. exists (TeamMember.mk 1 10 1 TeamMember.MEMBER TeamMember.PENDING).
  simpl. auto.
Defined.

(** C4 as the specification words it fails: the most recent team member row
    of class member 10 is ACCEPTED, and [nonleaders] still lists the member,
    because an older row is PENDING. *)
Lemma nonleaders_most_recent_counterexample :
  ~ (forall m, In m (class_members db_two_rows) ->
               (In (ClassMember.id m)
                   (returned_ids (nonleaders int_of_digits db_two_rows "1"))
                <-> spec_nonleader db_two_rows 1 m = true)).
Proof.
  intros H.
  specialize (H (ClassMember.mk 10 1 1 ClassMember.STUDENT ClassMember.ACCEPTED)
                (or_introl eq_refl)).
  destruct H as [H _].
  assert (spec_nonleader db_two_rows 1
            (ClassMember.mk 10 1 1 ClassMember.STUDENT ClassMember.ACCEPTED) = false)
    as E by reflexivity.
  rewrite E in H. apply Bool.diff_false_true. apply H.
  left. reflexivity.
Qed.

Lemma leaders_nonleaders_disjoint_witness :
  int_of_digits "1" = Some 1
  /\ user_fk_ok db_teams = true
  /\ unambiguous db_teams = true
  /\ (forall i, In i (returned_ids (leaders int_of_digits db_teams "1")) ->
                In i (returned_ids (nonleaders int_of_digits db_teams "1")) -> False).
Proof.
  split; [reflexivity|]. split; [reflexivity|]. split; [reflexivity|].
  exact (proj1 (leaders_nonleaders_disjoint int_of_digits db_teams "1" 1
                  eq_refl eq_refl eq_refl)).
Defined.

(** C3 as the specification words it fails: class member 20, an accepted
    student whose one team member row is ACCEPTED with a role other than
    LEADER, is a STUDENT member of classroom 1 and is in neither list, in a
    database where no class member has two team member rows.  (Neither is
    class member 21, a student whose class membership is PENDING: see
    [teams_lists].) *)
Lemma partition_counterexample :
  unambiguous db_teams = true
  /\ ~ (forall m, In m (class_members db_teams) ->
                  ClassMember.class_id m = 1 ->
                  ClassMember.role m = ClassMember.STUDENT ->
                  In (ClassMember.id m) (returned_ids (leaders int_of_digits db_teams "1"))
                  \/ In (ClassMember.id m)
                        (returned_ids (nonleaders int_of_digits db_teams "1"))).
Proof.
  split; [reflexivity|]. intros H.
  specialize (H (ClassMember.mk 20 1 1 ClassMember.STUDENT ClassMember.ACCEPTED)
                (or_introl eq_refl) eq_refl eq_refl).
  simpl in H.
  destruct H as [[H|[]] | [H|[]]]; discriminate H.
Qed.

Lemma missing_classroom_answers_200_witness :
  int_of_digits "7" = Some 7
  /\ class_fk_ok db_teams = true
  /\ (forall r, In r (class_rooms db_teams) -> ClassRoom.id r <> 7)
  /\ nonleaders int_of_digits db_teams "7" = Ok (mkResponse HTTP_200_OK (TeamEntries []))
  /\ leaders int_of_digits db_teams "7" = Ok (mkResponse HTTP_200_OK (TeamEntries [])).
Proof.
  assert (forall r, In r (class_rooms db_teams) -> ClassRoom.id r <> 7) as Hmissing.
  { intros r [E|[]]. subst r. discriminate. }
  split; [reflexivity|]. split; [reflexivity|]. split; [exact Hmissing|].
  exact (missing_classroom_answers_200 int_of_digits db_teams "7" 7
           eq_refl eq_refl Hmissing).
Defined.

(** ** Fresh keys *)

Lemma next_pk_above ids x : In x ids -> x < next_pk ids.
Proof.
  unfold next_pk. induction ids as [|y ids IH]; cbn [fold_right In]; intros Hin.
  - contradiction.
  - destruct Hin as [E | Hin]; [subst; lia|]. specialize (IH Hin). lia.
Qed.

Lemma no_room_with_next_pk rooms :
  filter (fun r => ClassRoom.id r =? next_pk (map ClassRoom.id rooms)) rooms = [].
Proof.
  destruct (filter _ rooms) as [|r l] eqn:E; [reflexivity|].
  assert (In r (filter (fun r => ClassRoom.id r =? next_pk (map ClassRoom.id rooms)) rooms))
    as Hin by (rewrite E; left; reflexivity).
  apply filter_In in Hin. destruct Hin as [Hin Hid]. apply Z.eqb_eq in Hid.
  pose proof (next_pk_above (map ClassRoom.id rooms) (ClassRoom.id r)
                (in_map ClassRoom.id rooms r Hin)). lia.
Qed.

(** Saving an instance right after [objects.create] made it rewrites its own
    row and leaves the table as it is. *)
Lemma save_created_member db user room role status :
  ClassMember_save
    (snd (ClassMember_objects_create db user room role status))
    (fst (ClassMember_objects_create db user room role status))
  = snd (ClassMember_objects_create db user room role status).
Proof.
  unfold ClassMember_objects_create, ClassMember_save, set_class_members.
  cbn [fst snd class_members ClassMember.id].
  set (pk := next_pk (map ClassMember.id (class_members db))).
  set (row := ClassMember.mk pk (User.id user) (ClassRoom.id room) role status).
  rewrite existsb_app. cbn [existsb ClassMember.id row].
  rewrite Z.eqb_refl, orb_true_l, orb_true_r.
  cbn [users class_rooms team_members invited_users].
  f_equal. rewrite map_app. cbn [map ClassMember.id row]. rewrite Z.eqb_refl.
  f_equal.
  rewrite <- (map_id (class_members db)) at 2.
  apply map_ext_in. intros x Hx.
  destruct (ClassMember.id x =? pk) eqn:E; [|reflexivity].
  apply Z.eqb_eq in E.
  pose proof (next_pk_above (map ClassMember.id (class_members db)) (ClassMember.id x)
                (in_map ClassMember.id _ x Hx)). subst pk. lia.
Qed.

(** ** Creating a classroom *)

Section CreateProperties.

Variable is_valid : DB -> ClassRoomFields -> bool.

(** What [create] does with a body the serializer accepts. *)
Lemma create_valid db user request_data :
  is_valid db request_data = true ->
  let new_class :=
    ClassRoom.mk (next_pk (map ClassRoom.id (class_rooms db)))
      (f_class_code request_data) (f_course_name request_data)
      (f_sections request_data) (f_schedule request_data) in
  create is_valid db user request_data
  = (Ok (mkResponse HTTP_201_CREATED (ClassRoomData new_class)),
     mkDB (users db) (class_rooms db ++ [new_class])
       (class_members db
        ++ [ClassMember.mk (next_pk (map ClassMember.id (class_members db)))
              (User.id user) (ClassRoom.id new_class)
              ClassMember.TEACHER ClassMember.ACCEPTED])
       (team_members db) (invited_users db)).
Proof.
  intros Hv new_class. unfold create, super_create. rewrite Hv.
  cbn [response_data_id data bind set_class_rooms class_rooms ClassRoom.id].
  rewrite filter_app, no_room_with_next_pk. cbn [filter app ClassRoom.id].
  rewrite Z.eqb_refl. cbn [objects_get bind].
  match goal with
  | |- context [ClassMember_objects_create ?d ?u ?r ?ro ?st] =>
      pose proof (save_created_member d u r ro st) as Hsave;
      destruct (ClassMember_objects_create d u r ro st) as [class_member db2] eqn:Ec
  end.
  simpl in Hsave. rewrite Hsave.
  unfold ClassMember_objects_create in Ec. injection Ec as _ E2. subst db2.
  reflexivity.
Qed.

Lemma create_invalid db user request_data :
  is_valid db request_data = false ->
  create is_valid db user request_data = (Raise ValidationError, db).
Proof.
  intros Hv. unfold create, super_create. rewrite Hv. reflexivity.
Qed.

(** C1: a create request is answered 201 exactly when the serializer
    accepts its body, and then the database gains the new classroom and
    exactly one membership row, which links the requesting user to that
    classroom as TEACHER with status ACCEPTED; nothing else changes. *)
Theorem create_adds_one_teacher db user request_data :
  (is_valid db request_data = true <->
   exists response,
     fst (create is_valid db user request_data) = Ok response
     /\ status_code response = HTTP_201_CREATED)
  /\ forall response db',
       create is_valid db user request_data = (Ok response, db') ->
       status_code response = HTTP_201_CREATED ->
       exists new_class,
         data response = ClassRoomData new_class
         /\ class_rooms db' = class_rooms db ++ [new_class]
         /\ class_members db'
            = class_members db
              ++ [ClassMember.mk (next_pk (map ClassMember.id (class_members db)))
                    (User.id user) (ClassRoom.id new_class)
                    ClassMember.TEACHER ClassMember.ACCEPTED]
         /\ users db' = users db
         /\ team_members db' = team_members db
         /\ invited_users db' = invited_users db.
Proof.
  destruct (is_valid db request_data) eqn:Hv.
  - pose proof (create_valid db user request_data Hv) as Hc. simpl in Hc.
    split.
    + split; [intros _|reflexivity]. rewrite Hc. eexists. split; reflexivity.
    + intros response db' E _. rewrite Hc in E. injection E as E1 E2.
      subst response db'. eexists. simpl. repeat split; reflexivity.
  - pose proof (create_invalid db user request_data Hv) as Hc. split.
    + split; [discriminate|]. intros [response [E _]]. rewrite Hc in E.
      discriminate E.
    + intros response db' E _. rewrite Hc in E. discriminate E.
Qed.

End CreateProperties.

Lemma create_adds_one_teacher_witness :
  exists response db',
    create needs_class_code db_school ben (mkFields "PH301" "Physics" "H3" "Sat")
    = (Ok response, db')
    /\ status_code response = HTTP_201_CREATED
    /\ class_members db'
       = class_members db_school
         ++ [ClassMember.mk 4 2 3 ClassMember.TEACHER ClassMember.ACCEPTED].
Proof.
  eexists. eexists. split; [reflexivity|]. split; [reflexivity|].
  destruct (proj2 (create_adds_one_teacher needs_class_code db_school ben
                     (mkFields "PH301" "Physics" "H3" "Sat"))
              _ _ eq_refl eq_refl)
    as [new_class [Hd [_ [Hm _]]]].
  simpl in Hd. injection Hd as Hd. subst new_class. exact Hm.
Defined.

(** ** Joining a classroom *)

Lemma memberships_by_code_member db user code :
  memberships_by_code db user code <> [] <-> already_member db user code.
Proof.
  unfold already_member. split.
  - intros Hne. destruct (memberships_by_code db user code) as [|m l] eqn:E;
      [contradiction|].
    assert (In m (memberships_by_code db user code)) as Hin
        by (rewrite E; left; reflexivity).
    unfold memberships_by_code in Hin. apply filter_In in Hin.
    destruct Hin as [Hm Hc]. unbool.
    match goal with H : existsb _ _ = true |- _ =>
      apply existsb_exists in H; destruct H as [r [Hr Hrc]] end.
    unbool. exists m, r. repeat split; auto.
  - intros [m [r [Hm [Hr [Hu [Hc Hcode]]]]]] E.
    assert (In m (memberships_by_code db user code)) as Hin.
    { unfold memberships_by_code. apply filter_In. split; [exact Hm|].
      rebool; [exact Hu|]. apply existsb_exists. exists r. split; [exact Hr|].
      rebool; auto. }
    rewrite E in Hin. inversion Hin.
Qed.

Lemma not_member_no_rows db user code :
  ~ already_member db user code -> memberships_by_code db user code = [].
Proof.
  intros Hn. destruct (memberships_by_code db user code) as [|m l] eqn:E;
    [reflexivity|].
  exfalso. apply Hn. apply memberships_by_code_member. rewrite E. discriminate.
Qed.

Lemma get_by_code_found db code room :
  ClassRoom_get_by_code db code = Ok room ->
  In room (class_rooms db) /\ ClassRoom.class_code room = code.
Proof.
  unfold ClassRoom_get_by_code, objects_get. intros H.
  destruct (filter _ (class_rooms db)) as [|r [|r' l]] eqn:E; try discriminate.
  injection H as H. subst r.
  assert (In room (filter (fun r => String.eqb (ClassRoom.class_code r) code)
                     (class_rooms db))) as Hin by (rewrite E; left; reflexivity).
  apply filter_In in Hin. destruct Hin as [Hin Hc]. unbool. auto.
Qed.

(** Once the row of a join is in the table the user is a member. *)
Lemma member_after_join db user code room role :
  ClassRoom_get_by_code db code = Ok room ->
  already_member
    (set_class_members db (class_members db ++ [joined_row db user room role]))
    user code.
Proof.
  intros Hget. apply get_by_code_found in Hget. destruct Hget as [Hr Hc].
  exists (joined_row db user room role), room. simpl.
  repeat split; auto. apply in_or_app. right. left. reflexivity.
Qed.

Lemma join_already_member db user code :
  already_member db user code ->
  join db user (Some code)
  = (Ok (mkResponse HTTP_200_OK (Details "You already joined the class")), db).
Proof.
  intros Hm. apply memberships_by_code_member in Hm. unfold join.
  destruct (memberships_by_code db user code); [contradiction|]. reflexivity.
Qed.

Lemma join_new_member db user code room :
  ~ already_member db user code ->
  ClassRoom_get_by_code db code = Ok room ->
  join db user (Some code)
  = (Ok (mkResponse HTTP_200_OK (Details "Partially joined class")),
     set_class_members db
       (class_members db ++ [joined_row db user room ClassMember.STUDENT])).
Proof.
  intros Hn Hget. unfold join. rewrite (not_member_no_rows db user code Hn).
  cbn [nonempty]. rewrite Hget.
  pose proof (save_created_member db user room ClassMember.STUDENT ClassMember.PENDING)
    as Hsave.
  destruct (ClassMember_objects_create db user room ClassMember.STUDENT
              ClassMember.PENDING) as [class_member db1] eqn:Ec.
  simpl in Hsave. rewrite Hsave.
  unfold ClassMember_objects_create in Ec. injection Ec as _ E. subst db1.
  reflexivity.
Qed.

Lemma join_no_classroom db user code e :
  ~ already_member db user code ->
  ClassRoom_get_by_code db code = Raise e ->
  snd (join db user (Some code)) = db
  /\ (e = ClassRoom_DoesNotExist ->
      fst (join db user (Some code))
      = Ok (mkResponse HTTP_400_BAD_REQUEST (Error "Invalid class code"))).
Proof.
  intros Hn Hget. unfold join. rewrite (not_member_no_rows db user code Hn).
  cbn [nonempty]. rewrite Hget. destruct e; split; try reflexivity; discriminate.
Qed.

(** C2, as the code has it: when the user already has a membership row for
    a classroom with the code, [join] answers 200 and changes nothing;
    otherwise, when the code names one classroom, it inserts exactly one row,
    with role STUDENT and status PENDING, and when the code names no
    classroom it answers 400 and inserts nothing.  A second [join] with the
    same code never changes the database the first one left. *)
Theorem join_inserts_at_most_once db user code :
  (already_member db user code ->
   join db user (Some code)
   = (Ok (mkResponse HTTP_200_OK (Details "You already joined the class")), db))
  /\ (~ already_member db user code ->
      forall room,
        ClassRoom_get_by_code db code = Ok room ->
        join db user (Some code)
        = (Ok (mkResponse HTTP_200_OK (Details "Partially joined class")),
           set_class_members db
             (class_members db
              ++ [ClassMember.mk (next_pk (map ClassMember.id (class_members db)))
                    (User.id user) (ClassRoom.id room)
                    ClassMember.STUDENT ClassMember.PENDING])))
  /\ (~ already_member db user code ->
      ClassRoom_get_by_code db code = Raise ClassRoom_DoesNotExist ->
      join db user (Some code)
      = (Ok (mkResponse HTTP_400_BAD_REQUEST (Error "Invalid class code")), db))
  /\ snd (join (snd (join db user (Some code))) user (Some code))
     = snd (join db user (Some code)).
Proof.
  split; [apply join_already_member|].
  split; [intros Hn room Hget; apply (join_new_member db user code room Hn Hget)|].
  split.
  - intros Hn Hget.
    destruct (join_no_classroom db user code _ Hn Hget) as [Hdb Hresp].
    specialize (Hresp eq_refl).
    destruct (join db user (Some code)) as [r d]. simpl in *. congruence.
  - destruct (memberships_by_code db user code) as [|m l] eqn:E.
    + assert (~ already_member db user code) as Hn.
      { intros Hm. apply memberships_by_code_member in Hm. congruence. }
      destruct (ClassRoom_get_by_code db code) as [room|e] eqn:Hget.
      * rewrite (join_new_member db user code room Hn Hget). cbn [snd].
        rewrite join_already_member; [reflexivity|].
        apply member_after_join. exact Hget.
      * destruct (join_no_classroom db user code e Hn Hget) as [Hdb _].
        rewrite Hdb. exact Hdb.
    + assert (already_member db user code) as Hm.
      { apply memberships_by_code_member. rewrite E. discriminate. }
      rewrite (join_already_member db user code Hm). cbn [snd].
      rewrite (join_already_member db user code Hm). reflexivity.
Qed.

Lemma join_inserts_at_most_once_witness :
  ~ already_member db_school ben "MA201"
  /\ ClassRoom_get_by_code db_school "MA201" = Ok room_ma
  /\ join db_school ben (Some "MA201"%string)
     = (Ok (mkResponse HTTP_200_OK (Details "Partially joined class")),
        set_class_members db_school
          (class_members db_school
           ++ [ClassMember.mk 4 2 2 ClassMember.STUDENT ClassMember.PENDING])).
Proof.
  assert (~ already_member db_school ben "MA201") as Hn.
  { intros Hm. apply memberships_by_code_member in Hm. apply Hm. reflexivity. }
  split; [exact Hn|]. split; [reflexivity|].
  exact (proj1 (proj2 (join_inserts_at_most_once db_school ben "MA201"))
           Hn room_ma eq_refl).
Defined.

(** C2 as the specification words it fails: [root] has no membership row for
    a classroom with code NOPE, and [join] inserts no row: no classroom has
    that code, and the answer is 400. *)
Lemma join_unknown_code_counterexample :
  ~ already_member db_school root "NOPE"
  /\ fst (join db_school root (Some "NOPE"%string))
     = Ok (mkResponse HTTP_400_BAD_REQUEST (Error "Invalid class code"))
  /\ ~ (exists row,
          class_members (snd (join db_school root (Some "NOPE"%string)))
          = class_members db_school ++ [row]).
Proof.
  split; [|split; [reflexivity|]].
  - intros Hm. apply memberships_by_code_member in Hm. apply Hm. reflexivity.
  - intros [row H]. apply (f_equal (@List.length ClassMember.t)) in H.
    rewrite length_app in H. simpl in H. lia.
Qed.

(** ** Joining as a guest *)

Lemma guest_role_cases user_role :
  (user_role = Some 1 -> guest_role user_role = ClassMember.TEACHER)
  /\ (user_role = Some 2 -> guest_role user_role = ClassMember.STUDENT)
  /\ (user_role <> Some 1 -> user_role <> Some 2 ->
      guest_role user_role = ClassMember.GUEST).
Proof.
  repeat split.
  - intros E. subst. reflexivity.
  - intros E. subst. reflexivity.
  - intros H1 H2. unfold guest_role. destruct user_role as [n|]; [|reflexivity].
    destruct (n =? 1) eqn:E1; [apply Z.eqb_eq in E1; subst; contradiction|].
    destruct (n =? 2) eqn:E2; [apply Z.eqb_eq in E2; subst; contradiction|].
    reflexivity.
Qed.

Lemma truthy_nonempty code : code <> ""%string -> truthy (Some code) = true.
Proof.
  intros H. unfold truthy. destruct (String.eqb code "") eqn:E; [|reflexivity].
  apply String.eqb_eq in E. contradiction.
Qed.

(** C6: for a request with a class code, [join_class_as_guest] answers 200
    without touching the database when the user already has a membership
    row for the classroom; when the user has none and the code names one
    classroom, it inserts one PENDING row whose role depends on [user_role]
    alone: TEACHER for 1, STUDENT for 2, GUEST for any other integer and for
    an absent field. *)
Theorem join_class_as_guest_role db user code user_role :
  code <> ""%string ->
  (already_member db user code ->
   join_class_as_guest db user (Some code) user_role
   = (Ok (mkResponse HTTP_200_OK (Details "You have already joined the class")), db))
  /\ (~ already_member db user code ->
      forall room,
        ClassRoom_get_by_code db code = Ok room ->
        exists role,
          join_class_as_guest db user (Some code) user_role
          = (Ok (mkResponse HTTP_200_OK (Details "Partially joined the class")),
             set_class_members db
               (class_members db
                ++ [ClassMember.mk (next_pk (map ClassMember.id (class_members db)))
                      (User.id user) (ClassRoom.id room) role ClassMember.PENDING]))
          /\ (user_role = Some 1 -> role = ClassMember.TEACHER)
          /\ (user_role = Some 2 -> role = ClassMember.STUDENT)
          /\ (user_role <> Some 1 -> user_role <> Some 2 ->
              role = ClassMember.GUEST)).
Proof.
  intros Hcode. unfold join_class_as_guest.
  rewrite (truthy_nonempty code Hcode). cbn [negb]. split.
  - intros Hm. apply memberships_by_code_member in Hm.
    destruct (memberships_by_code db user code); [contradiction|]. reflexivity.
  - intros Hn room Hget. rewrite (not_member_no_rows db user code Hn).
    cbn [hd_error]. rewrite Hget.
    exists (guest_role user_role). split; [reflexivity|].
    apply guest_role_cases.
Qed.

Lemma join_class_as_guest_role_witness :
  "CS101"%string <> ""%string
  /\ ~ already_member db_school root "CS101"
  /\ ClassRoom_get_by_code db_school "CS101" = Ok room_cs
  /\ join_class_as_guest db_school root (Some "CS101"%string) (Some 1)
     = (Ok (mkResponse HTTP_200_OK (Details "Partially joined the class")),
        set_class_members db_school
          (class_members db_school
           ++ [ClassMember.mk 4 3 1 ClassMember.TEACHER ClassMember.PENDING])).
Proof.
  assert ("CS101"%string <> ""%string) as Hcode by discriminate.
  assert (~ already_member db_school root "CS101") as Hn.
  { intros Hm. apply memberships_by_code_member in Hm. apply Hm. reflexivity. }
  split; [exact Hcode|]. split; [exact Hn|]. split; [reflexivity|].
  destruct (proj2 (join_class_as_guest_role db_school root "CS101" (Some 1) Hcode)
              Hn room_cs eq_refl) as [role [Hj [Ht _]]].
  rewrite (Ht eq_refl) in Hj. exact Hj.
Defined.

(** ** Invitations *)

Lemma in_invited_classrooms db user room :
  In room (invited_classrooms db user) <->
  In room (class_rooms db)
  /\ In (ClassRoom.id room, User.id user) (invited_users db)
  /\ ~ (exists m, In m (class_members db)
                  /\ ClassMember.user_id m = User.id user
                  /\ ClassMember.class_id m = ClassRoom.id room
                  /\ ClassMember.status m = ClassMember.ACCEPTED).
Proof.
  unfold invited_classrooms, accepted_class_ids.
  rewrite filter_In, in_flat_map, negb_true_iff. split.
  - intros [[r [Hr Hin]] Hex].
    apply in_map_iff in Hin. destruct Hin as [p [E Hp]]. subst r.
    apply filter_In in Hp. destruct Hp as [Hp Hpe]. unbool.
    split; [exact Hr|]. split.
    + destruct p as [c u]. simpl in *. subst. exact Hp.
    + intros [m [Hm [Hu [Hc Hs]]]].
      assert (existsb (Z.eqb (ClassRoom.id room))
                (map ClassMember.class_id
                   (filter (fun m => (ClassMember.user_id m =? User.id user)
                                     && ClassMember.status_eqb (ClassMember.status m)
                                          ClassMember.ACCEPTED)
                      (class_members db))) = true) as Ht.
      { apply existsb_exists. exists (ClassMember.class_id m). split.
        - apply in_map. apply filter_In. split; [exact Hm|]. rebool; assumption.
        - apply Z.eqb_eq. congruence. }
      congruence.
  - intros [Hr [Hinv Hno]]. split.
    + exists room. split; [exact Hr|].
      apply in_map_iff. exists (ClassRoom.id room, User.id user).
      split; [reflexivity|]. apply filter_In. split; [exact Hinv|].
      simpl. rebool; reflexivity.
    + apply not_true_is_false. intros Ht. apply Hno.
      apply existsb_exists in Ht. destruct Ht as [c [Hc E]]. apply Z.eqb_eq in E.
      apply in_map_iff in Hc. destruct Hc as [m [Hmc Hm]].
      apply filter_In in Hm. destruct Hm as [Hm Hcond]. unbool.
      exists m. repeat split; auto. congruence.
Qed.

Lemma get_invited_classes_found db email user :
  email <> ""%string ->
  User_get_by_email db email = Ok user ->
  get_invited_classes db (Some email)
  = if nonempty (invited_classrooms db user)
    then Ok (mkResponse HTTP_200_OK (Classes (invited_classrooms db user)))
    else Ok (mkResponse HTTP_404_NOT_FOUND (Message "No classes found for this user.")).
Proof.
  intros He Hu. unfold get_invited_classes.
  rewrite (truthy_nonempty email He), Hu. cbn [negb].
  destruct (nonempty (invited_classrooms db user)); reflexivity.
Qed.

Lemma returned_classes_found db email user :
  email <> ""%string ->
  User_get_by_email db email = Ok user ->
  returned_classes (get_invited_classes db (Some email)) = invited_classrooms db user.
Proof.
  intros He Hu. rewrite (get_invited_classes_found db email user He Hu).
  destruct (invited_classrooms db user); reflexivity.
Qed.

(** C10: for a user found by email, [get_invited_classes] answers 404 with
    a message when the computed set of classrooms is empty, and 200 with the
    set exactly when it is not. *)
Theorem get_invited_classes_status db email user :
  email <> ""%string ->
  User_get_by_email db email = Ok user ->
  exists response,
    get_invited_classes db (Some email) = Ok response
    /\ (invited_classrooms db user = [] ->
        response
        = mkResponse HTTP_404_NOT_FOUND (Message "No classes found for this user."))
    /\ (status_code response = HTTP_200_OK <-> invited_classrooms db user <> [])
    /\ (status_code response = HTTP_200_OK ->
        data response = Classes (invited_classrooms db user)).
Proof.
  intros He Hu. rewrite (get_invited_classes_found db email user He Hu).
  destruct (invited_classrooms db user) as [|r l]; cbn [nonempty].
  - eexists. split; [reflexivity|]. split; [reflexivity|]. split.
    + split; [discriminate|congruence].
    + discriminate.
  - eexists. split; [reflexivity|]. split; [discriminate|]. split.
    + split; [discriminate|reflexivity].
    + reflexivity.
Qed.

Lemma get_invited_classes_status_witness :
  "ana@example.org"%string <> ""%string
  /\ User_get_by_email db_school "ana@example.org" = Ok ana
  /\ invited_classrooms db_school ana = []
  /\ get_invited_classes db_school (Some "ana@example.org"%string)
     = Ok (mkResponse HTTP_404_NOT_FOUND (Message "No classes found for this user.")).
Proof.
  assert ("ana@example.org"%string <> ""%string) as He by discriminate.
  split; [exact He|]. split; [reflexivity|]. split; [reflexivity|].
  destruct (get_invited_classes_status db_school "ana@example.org" ana He eq_refl)
    as [response [Hr [H404 _]]].
  rewrite Hr. f_equal. apply H404. reflexivity.
Defined.

Lemma get_object_found db n room :
  get_object_or_404 db (Some n) = Ok room ->
  filter (fun r => ClassRoom.id r =? n) (class_rooms db) = [room].
Proof.
  unfold get_object_or_404, objects_get.
  destruct (filter _ (class_rooms db)) as [|r [|r' l]]; try discriminate.
  intros H. injection H as H. subst r. reflexivity.
Qed.

Lemma found_room_in_table db n room :
  get_object_or_404 db (Some n) = Ok room ->
  In room (class_rooms db) /\ ClassRoom.id room = n.
Proof.
  intros H. apply get_object_found in H.
  assert (In room (filter (fun r => ClassRoom.id r =? n) (class_rooms db))) as Hin
      by (rewrite H; left; reflexivity).
  apply filter_In in Hin. destruct Hin as [Hin E]. apply Z.eqb_eq in E. auto.
Qed.

(** Saving a classroom instance that was just read and not modified leaves
    the database as it is. *)
Lemma ClassRoom_save_unchanged db n room :
  get_object_or_404 db (Some n) = Ok room ->
  forall db1, class_rooms db1 = class_rooms db -> ClassRoom_save db1 room = db1.
Proof.
  intros Hget db1 Hrooms.
  destruct (found_room_in_table db n room Hget) as [Hin Hid].
  apply get_object_found in Hget.
  unfold ClassRoom_save.
  assert (existsb (fun x => ClassRoom.id x =? ClassRoom.id room) (class_rooms db1) = true)
    as Hex.
  { rewrite Hrooms. apply existsb_exists. exists room. split; [exact Hin|].
    apply Z.eqb_refl. }
  rewrite Hex.
  assert (map (fun x => if ClassRoom.id x =? ClassRoom.id room then room else x)
            (class_rooms db1) = class_rooms db1) as Hmap.
  { rewrite <- (map_id (class_rooms db1)) at 2. apply map_ext_in. intros x Hx.
    destruct (ClassRoom.id x =? ClassRoom.id room) eqn:E; [|reflexivity].
    rewrite Hid in E. rewrite Hrooms in Hx.
    assert (In x (filter (fun r => ClassRoom.id r =? n) (class_rooms db))) as Hf
        by (apply filter_In; auto).
    rewrite Hget in Hf. destruct Hf as [Hf|[]]. exact Hf. }
  rewrite Hmap. destruct db1. reflexivity.
Qed.

Lemma inviteToClass_found db n email room user :
  email <> ""%string ->
  get_object_or_404 db (Some n) = Ok room ->
  User_get_by_email db email = Ok user ->
  inviteToClass db (Some n) (Some email)
  = (Ok (mkResponse HTTP_200_OK (Message (String.append email " invited successfully"))),
     invited_users_add db room user).
Proof.
  intros He Hget Hu. unfold inviteToClass.
  rewrite (truthy_nonempty email He), Hget, Hu. cbn [negb].
  rewrite (ClassRoom_save_unchanged db n room Hget); [reflexivity|].
  unfold invited_users_add. destruct (existsb _ (invited_users db)); reflexivity.
Qed.

Lemma invited_after_add db room user :
  In (ClassRoom.id room, User.id user) (invited_users (invited_users_add db room user))
  /\ users (invited_users_add db room user) = users db
  /\ class_rooms (invited_users_add db room user) = class_rooms db
  /\ class_members (invited_users_add db room user) = class_members db.
Proof.
  unfold invited_users_add.
  destruct (existsb _ (invited_users db)) eqn:E.
  - split; [|auto]. apply existsb_exists in E. destruct E as [[c u] [Hin E]].
    simpl in E. unbool. subst. exact Hin.
  - split; [|auto]. simpl. apply in_or_app. right. left. reflexivity.
Qed.

(** C7: for a user found by email, the classes [get_invited_classes]
    returns are exactly the classrooms whose invited users hold the user,
    less the classrooms in which the user has a membership row with status
    ACCEPTED.  So right after the user is invited to a classroom, the
    classroom is returned exactly when the user has no ACCEPTED membership
    row in it; a PENDING row alone does not remove it. *)
Theorem get_invited_classes_difference db email user :
  email <> ""%string ->
  User_get_by_email db email = Ok user ->
  (forall room,
     In room (returned_classes (get_invited_classes db (Some email))) <->
     In room (class_rooms db)
     /\ In (ClassRoom.id room, User.id user) (invited_users db)
     /\ ~ (exists m, In m (class_members db)
                     /\ ClassMember.user_id m = User.id user
                     /\ ClassMember.class_id m = ClassRoom.id room
                     /\ ClassMember.status m = ClassMember.ACCEPTED))
  /\ (forall n room,
        get_object_or_404 db (Some n) = Ok room ->
        (In room
           (returned_classes
              (get_invited_classes (snd (inviteToClass db (Some n) (Some email)))
                 (Some email))) <->
         ~ (exists m, In m (class_members db)
                      /\ ClassMember.user_id m = User.id user
                      /\ ClassMember.class_id m = ClassRoom.id room
                      /\ ClassMember.status m = ClassMember.ACCEPTED))).
Proof.
  intros He Hu. split.
  - intros room. rewrite (returned_classes_found db email user He Hu).
    apply in_invited_classrooms.
  - intros n room Hget.
    rewrite (inviteToClass_found db n email room user He Hget Hu). cbn [snd].
    destruct (invited_after_add db room user) as [Hinv [Husers [Hrooms Hmembers]]].
    assert (User_get_by_email (invited_users_add db room user) email = Ok user) as Hu'.
    { unfold User_get_by_email. rewrite Husers. exact Hu. }
    rewrite (returned_classes_found _ email user He Hu').
    rewrite in_invited_classrooms, Hrooms, Hmembers.
    destruct (found_room_in_table db n room Hget) as [Hin _]. tauto.
Qed.

Lemma get_invited_classes_difference_witness :
  "ben@example.org"%string <> ""%string
  /\ User_get_by_email db_school "ben@example.org" = Ok ben
  /\ returned_classes (get_invited_classes db_school (Some "ben@example.org"%string))
     = [room_ma]
  /\ ~ In room_cs
         (returned_classes (get_invited_classes db_school (Some "ben@example.org"%string))).
Proof.
  assert ("ben@example.org"%string <> ""%string) as He by discriminate.
  split; [exact He|]. split; [reflexivity|]. split; [reflexivity|].
  intros Hin.
  apply (proj1 (get_invited_classes_difference db_school "ben@example.org" ben
                  He eq_refl)) in Hin.
  destruct Hin as [_ [_ Hno]]. apply Hno.
  exists (ClassMember.mk 3 2 1 ClassMember.STUDENT ClassMember.ACCEPTED).
  simpl. auto.
Defined.

(** A PENDING membership keeps the invitation listed: [ana], who asked to
    join the second classroom, is then invited to it. *)
Example invited_while_pending :
  returned_classes
    (get_invited_classes
       (snd (inviteToClass db_school (Some 2) (Some "ana@example.org"%string)))
       (Some "ana@example.org"%string))
  = [room_ma].
Proof. reflexivity. Qed.

(** ** Listing classrooms *)

Lemma in_list_queryset db user room :
  In room (list_queryset db user) <->
  In room (class_rooms db)
  /\ exists m, In m (class_members db)
               /\ ClassMember.user_id m = User.id user
               /\ ClassMember.class_id m = ClassRoom.id room
               /\ ClassMember.status m = ClassMember.ACCEPTED.
Proof.
  unfold list_queryset. rewrite in_flat_map. split.
  - intros [r [Hr Hin]]. apply in_map_iff in Hin. destruct Hin as [m [E Hm]].
    subst r. apply filter_In in Hm. destruct Hm as [Hm Hc]. unbool.
    split; [exact Hr|]. exists m. auto.
  - intros [Hr [m [Hm [Hu [Hc Hs]]]]]. exists room. split; [exact Hr|].
    apply in_map_iff. exists m. split; [reflexivity|].
    apply filter_In. split; [exact Hm|]. rebool; assumption.
Qed.

Lemma member_entries_ok db l :
  user_fk_ok db = true ->
  (forall m, In m l -> In m (class_members db)) ->
  exists members, for_each (member_entry db) l = Ok members.
Proof.
  intros Hok. induction l as [|m l IH]; intros Hin.
  - exists []. reflexivity.
  - destruct (fk_user_resolves db m Hok (Hin m (or_introl eq_refl))) as [u Hu].
    destruct IH as [members Hms].
    { intros x Hx. apply Hin. right. exact Hx. }
    eexists. simpl. unfold member_entry at 1. rewrite Hu. simpl. rewrite Hms.
    reflexivity.
Qed.

Lemma listing_ok db rooms :
  user_fk_ok db = true ->
  exists listing,
    for_each
      (fun room =>
         members <-
           for_each (member_entry db)
             (filter (fun m => ClassMember.class_id m =? ClassRoom.id room)
                (class_members db)) ;;
         Ok (room, members))
      rooms = Ok listing
    /\ map fst listing = rooms.
Proof.
  intros Hok. induction rooms as [|room rooms IH].
  - exists []. split; reflexivity.
  - destruct IH as [listing [Hl Hfst]].
    destruct (member_entries_ok db
                (filter (fun m => ClassMember.class_id m =? ClassRoom.id room)
                   (class_members db)) Hok) as [members Hms].
    { intros m Hm. apply filter_In in Hm. tauto. }
    exists ((room, members) :: listing). cbn [for_each]. rewrite Hms.
    cbn [bind]. rewrite Hl. cbn [bind map fst]. rewrite Hfst. split; reflexivity.
Qed.

(** C9: [list] answers 200; for a superuser with every classroom, for any
    other user with exactly the classrooms in which the user has a
    membership row with status ACCEPTED, so that a classroom where the user
    only has a PENDING row is left out. *)
Theorem list_visible_classrooms db user :
  user_fk_ok db = true ->
  exists listing,
    list_ db user = Ok (mkResponse HTTP_200_OK (ClassRoomList listing))
    /\ (User.is_superuser user = true -> map fst listing = class_rooms db)
    /\ (User.is_superuser user = false ->
        forall room,
          In room (map fst listing) <->
          In room (class_rooms db)
          /\ exists m, In m (class_members db)
                       /\ ClassMember.user_id m = User.id user
                       /\ ClassMember.class_id m = ClassRoom.id room
                       /\ ClassMember.status m = ClassMember.ACCEPTED).
Proof.
  intros Hok. unfold list_.
  destruct (User.is_superuser user); cbn [try_except bind].
  - destruct (listing_ok db (class_rooms db) Hok) as [listing [Hl Hfst]].
    exists listing. rewrite Hl. split; [reflexivity|].
    split; [intros _; exact Hfst|discriminate].
  - destruct (listing_ok db (list_queryset db user) Hok) as [listing [Hl Hfst]].
    exists listing. rewrite Hl. split; [reflexivity|].
    split; [discriminate|]. intros _ room. rewrite Hfst.
    apply in_list_queryset.
Qed.

Lemma list_visible_classrooms_witness :
  user_fk_ok db_school = true
  /\ exists listing,
       list_ db_school ana = Ok (mkResponse HTTP_200_OK (ClassRoomList listing))
       /\ map fst listing = [room_cs]
       /\ ~ In room_ma (map fst listing).
Proof.
  split; [reflexivity|].
  destruct (list_visible_classrooms db_school ana eq_refl)
    as [listing [Hl [_ Hiff]]].
  exists listing. split; [exact Hl|]. split.
  - vm_compute in Hl. injection Hl as Hl. subst listing. reflexivity.
  - intros Hin. apply (Hiff eq_refl) in Hin.
    destruct Hin as [_ [m [Hm [_ [Hc Hs]]]]].
    simpl in Hm. destruct Hm as [E|[E|[E|[]]]]; subst m; simpl in *; discriminate.
Defined.

Example list_superuser :
  exists listing,
    list_ db_school root = Ok (mkResponse HTTP_200_OK (ClassRoomList listing))
    /\ map fst listing = [room_cs; room_ma].
Proof. eexists. split; reflexivity. Qed.

(** * Further properties of the controller *)

(** ** What [leaders] and [nonleaders] answer *)

(** The loop over the selected rows can only fail on the user foreign
    key. *)
Lemma team_entries_raise db rows e :
  for_each (team_entry db) rows = Raise e ->
  e = User_DoesNotExist \/ e = MultipleObjectsReturned.
Proof.
  induction rows as [|row rows IH]; simpl; [discriminate|].
  unfold team_entry at 1, fk_user, objects_get.
  destruct (filter _ (users db)) as [|u [|u' l]]; simpl.
  - intros H. injection H as H. auto.
  - destruct (for_each (team_entry db) rows) as [es|e'] eqn:E; simpl.
    + discriminate.
    + intros H. injection H as H. subst e'. apply IH. reflexivity.
  - intros H. injection H as H. auto.
Qed.

(** Each entry is built from its row: the key and the annotation of the
    row, the names of the user the row points to. *)
Lemma team_entries_rows db rows entries :
  for_each (team_entry db) rows = Ok entries ->
  Forall2 (fun row e =>
             class_member_id e = ClassMember.id (fst row)
             /\ teamember_status e = snd row
             /\ exists u, fk_user db (ClassMember.user_id (fst row)) = Ok u
                          /\ first_name e = User.first_name u
                          /\ last_name e = User.last_name u)
    rows entries.
Proof.
  revert entries. induction rows as [|row rows IH]; simpl; intros entries H.
  - injection H as H. subst. constructor.
  - unfold team_entry at 1 in H.
    destruct (fk_user db (ClassMember.user_id (fst row))) as [u|e] eqn:Eu;
      simpl in H; [|discriminate].
    destruct (for_each (team_entry db) rows) as [es|e] eqn:E; simpl in H;
      [|discriminate].
    injection H as H. subst entries. constructor.
    + simpl. repeat split; auto. exists u. auto.
    + apply IH. reflexivity.
Qed.

Lemma Forall2_in_right {A B} (R : A -> B -> Prop) l l' b :
  Forall2 R l l' -> In b l' -> exists a, In a l /\ R a b.
Proof.
  induction 1 as [|a b' l l' Hab _ IH]; simpl; [contradiction|].
  intros [E | Hin].
  - subst. exists a. auto.
  - destruct (IH Hin) as [a' [Ha' HR]]. exists a'. auto.
Qed.

(** The ids of the query set of [nonleaders], row by row. *)
Lemma nonleaders_queryset_multiplicity db cid :
  map (fun row => ClassMember.id (fst row)) (nonleaders_queryset db cid)
  = flat_map (fun m => repeat (ClassMember.id m) (nonleaders_multiplicity db m))
      (filter (fun m => (ClassMember.class_id m =? cid)
                        && ClassMember.role_eqb (ClassMember.role m) ClassMember.STUDENT
                        && ClassMember.status_eqb (ClassMember.status m) ClassMember.ACCEPTED)
         (class_members db)).
Proof.
  unfold nonleaders_queryset.
  induction (filter _ (class_members db)) as [|m l IH]; [reflexivity|].
  cbn [map flat_map]. rewrite filter_app, !map_app, IH. f_equal.
  cbn [fst]. unfold nonleaders_multiplicity, left_join_teammember.
  assert (annotation_is (nonleaders_subquery db m) TeamMember.PENDING
          = existsb (fun t => TeamMember.status_eqb (TeamMember.status t) TeamMember.PENDING)
              (teammember_set db (ClassMember.id m))) as Ha.
  { unfold nonleaders_subquery. apply first_status_is.
    intros t H. apply tm_status_eqb_eq. exact H. }
  destruct (teammember_set db (ClassMember.id m)) as [|t ts].
  - reflexivity.
  - rewrite <- Ha. clear Ha.
    rewrite filter_map_swap, !map_map. cbn [fst snd isnull orb].
    destruct (annotation_is (nonleaders_subquery db m) TeamMember.PENDING).
    + generalize (t :: ts). intros l'.
      induction l' as [|x l' IH']; simpl; [reflexivity|]. rewrite IH'. reflexivity.
    + generalize (t :: ts). intros l'.
      induction l' as [|x l' IH']; simpl; [reflexivity|]. exact IH'.
Qed.

Lemma NoDup_map_filter {A B} (f : A -> B) (p : A -> bool) l :
  NoDup (map f l) -> NoDup (map f (filter p l)).
Proof.
  induction l as [|a l IH]; simpl; intros H; [constructor|].
  inversion H as [|x xs Hnin Hnd]; subst.
  destruct (p a); simpl; [|auto]. constructor; [|auto].
  intros Hin. apply Hnin. apply in_map_iff in Hin.
  destruct Hin as [x [E Hx]]. apply filter_In in Hx.
  apply in_map_iff. exists x. tauto.
Qed.

Lemma NoDup_repeat_at_most_once {A} (f : A -> Z) (k : A -> nat) l :
  NoDup (map f l) ->
  (forall a, In a l -> (k a <= 1)%nat) ->
  NoDup (flat_map (fun a => repeat (f a) (k a)) l).
Proof.
  induction l as [|a l IH]; simpl; intros Hnd Hk; [constructor|].
  inversion Hnd as [|x xs Hnin Hnd']; subst.
  assert (NoDup (flat_map (fun a => repeat (f a) (k a)) l)) as Hrest
      by (apply IH; auto).
  assert (k a <= 1)%nat as Hka by (apply Hk; auto).
  destruct (k a) as [|[|n]]; simpl; [exact Hrest| |lia].
  constructor; [|exact Hrest].
  intros Hin. apply Hnin. apply in_flat_map in Hin.
  destruct Hin as [b [Hb Hrep]]. apply repeat_spec in Hrep.
  apply in_map_iff. exists b. auto.
Qed.

Section TeamAnswers.

Variable int_of_pk : string -> option Z.

(** X1: no exception leaves [nonleaders] or [leaders], and they answer 200
    with a list or the generic 500; the two 404 handlers never fire. *)
Theorem team_actions_200_or_500 db pk :
  (exists r, nonleaders int_of_pk db pk = Ok r
             /\ ((exists entries, r = mkResponse HTTP_200_OK (TeamEntries entries))
                 \/ r = mkResponse HTTP_500_INTERNAL_SERVER_ERROR
                          (Details "Internal Server Error")))
  /\ (exists r, leaders int_of_pk db pk = Ok r
                /\ ((exists entries, r = mkResponse HTTP_200_OK (TeamEntries entries))
                    \/ r = mkResponse HTTP_500_INTERNAL_SERVER_ERROR
                             (Details "Internal Server Error"))).
Proof.
  unfold nonleaders, leaders, prep_pk.
  destruct (int_of_pk pk) as [cid|]; cbn [bind try_except team_handlers].
  - split.
    + destruct (for_each (team_entry db) (nonleaders_queryset db cid)) as [es|e] eqn:E;
        cbn [bind try_except].
      * eexists. split; [reflexivity|]. left. eexists. reflexivity.
      * destruct (team_entries_raise db _ e E); subst e; eexists;
          (split; [reflexivity|]); right; reflexivity.
    + destruct (for_each (team_entry db) (leaders_queryset db cid)) as [es|e] eqn:E;
        cbn [bind try_except].
      * eexists. split; [reflexivity|]. left. eexists. reflexivity.
      * destruct (team_entries_raise db _ e E); subst e; eexists;
          (split; [reflexivity|]); right; reflexivity.
  - split; eexists; (split; [reflexivity|]); right; reflexivity.
Qed.


(** X3: when the keys of the class members are unique and no class member
    has two team member rows, neither list names a class member twice. *)
Theorem team_lists_without_repetition db pk cid :
  int_of_pk pk = Some cid ->
  user_fk_ok db = true ->
  unambiguous db = true ->
  NoDup (map ClassMember.id (class_members db)) ->
  NoDup (returned_ids (leaders int_of_pk db pk))
  /\ NoDup (returned_ids (nonleaders int_of_pk db pk)).
Proof.
  intros Hpk Hok Hun Hnd. split.
  - destruct (leaders_response int_of_pk db pk cid Hpk Hok) as [entries [Hr Hids]].
    rewrite Hr. cbn [returned_ids]. rewrite Hids, leaders_queryset_ids.
    apply NoDup_map_filter. exact Hnd.
  - destruct (nonleaders_response int_of_pk db pk cid Hpk Hok) as [entries [Hr Hids]].
    rewrite Hr. cbn [returned_ids]. rewrite Hids, nonleaders_queryset_multiplicity.
    apply NoDup_repeat_at_most_once.
    + apply NoDup_map_filter. exact Hnd.
    + intros m Hm. apply filter_In in Hm. destruct Hm as [Hm _].
      unfold unambiguous in Hun. rewrite forallb_forall in Hun.
      specialize (Hun m Hm). apply Nat.leb_le in Hun.
      unfold nonleaders_multiplicity.
      destruct (teammember_set db (ClassMember.id m)) as [|t ts]; [lia|].
      destruct (existsb _ (t :: ts)); [exact Hun|lia].
Qed.

(** X4: the [teamember_status] of an entry tells the two lists apart: it is
    ACCEPTED in every entry of [leaders]; in an entry of [nonleaders] it is
    null when the class member has no team member row and PENDING when it
    has a PENDING one. *)
Theorem team_entry_statuses db pk :
  (forall e, In e (returned_entries (leaders int_of_pk db pk)) ->
             teamember_status e = Some TeamMember.ACCEPTED)
  /\ (forall e, In e (returned_entries (nonleaders int_of_pk db pk)) ->
                (teamember_status e = None
                 /\ forall t, In t (team_members db) ->
                              TeamMember.class_member_id t <> class_member_id e)
                \/ (teamember_status e = Some TeamMember.PENDING
                    /\ exists t, In t (team_members db)
                                 /\ TeamMember.class_member_id t = class_member_id e
                                 /\ TeamMember.status t = TeamMember.PENDING)).
Proof.
  unfold nonleaders, leaders, prep_pk.
  destruct (int_of_pk pk) as [cid|]; cbn [bind try_except team_handlers];
    [|split; intros ? []].
  split.
  - destruct (for_each (team_entry db) (leaders_queryset db cid)) as [es|x] eqn:E;
      cbn [bind try_except returned_entries].
    + intros e He.
      destruct (Forall2_in_right _ _ _ e (team_entries_rows db _ es E) He)
        as [row [Hrow [_ [Hs _]]]].
      unfold leaders_queryset in Hrow. apply filter_In in Hrow.
      destruct Hrow as [_ Ha]. rewrite Hs.
      destruct (snd row) as [[|]|]; simpl in Ha; try discriminate. reflexivity.
    + destruct x; simpl; intros ? [].
  - destruct (for_each (team_entry db) (nonleaders_queryset db cid)) as [es|x] eqn:E;
      cbn [bind try_except returned_entries].
    + intros e He.
      destruct (Forall2_in_right _ _ _ e (team_entries_rows db _ es E) He)
        as [row [Hrow [Hid [Hs _]]]].
      apply in_nonleaders_queryset in Hrow.
      destruct Hrow as [_ [Hsub [_ [_ [_ Hcases]]]]].
      rewrite Hs, Hid, Hsub.
      destruct (annotation_is (nonleaders_subquery db (fst row)) TeamMember.PENDING)
        eqn:Ha.
      * right. split.
        -- destruct (nonleaders_subquery db (fst row)) as [[|]|]; simpl in Ha;
             try discriminate. reflexivity.
        -- apply nonleaders_annotation. exact Ha.
      * destruct Hcases as [Hnone | Hpend].
        -- left. split; [|exact Hnone].
           unfold nonleaders_subquery.
           apply teammember_set_nil in Hnone. rewrite Hnone. reflexivity.
        -- apply nonleaders_annotation in Hpend. congruence.
    + destruct x; simpl; intros ? [].
Qed.

End TeamAnswers.


Lemma team_lists_without_repetition_witness :
  int_of_digits "1" = Some 1
  /\ user_fk_ok db_teams = true
  /\ unambiguous db_teams = true
  /\ NoDup (map ClassMember.id (class_members db_teams))
  /\ NoDup (returned_ids (leaders int_of_digits db_teams "1"))
  /\ NoDup (returned_ids (nonleaders int_of_digits db_teams "1")).
Proof.
  assert (NoDup (map ClassMember.id (class_members db_teams))) as Hnd.
  { simpl. repeat constructor; simpl; intuition discriminate. }
  split; [reflexivity|]. split; [reflexivity|]. split; [reflexivity|].
  split; [exact Hnd|].
  exact (team_lists_without_repetition int_of_digits db_teams "1" 1
           eq_refl eq_refl eq_refl Hnd).
Defined.

Lemma team_entry_statuses_witness :
  In (mkTeamEntry 10 "Ana" "Cruz" (Some TeamMember.PENDING))
     (returned_entries (nonleaders int_of_digits db_two_rows "1"))
  /\ exists t, In t (team_members db_two_rows)
               /\ TeamMember.class_member_id t = 10
               /\ TeamMember.status t = TeamMember.PENDING.
Proof.
  assert (In (mkTeamEntry 10 "Ana" "Cruz" (Some TeamMember.PENDING))
            (returned_entries (nonleaders int_of_digits db_two_rows "1"))) as Hin
      by (left; reflexivity).
  split; [exact Hin|].
  destruct (proj2 (team_entry_statuses int_of_digits db_two_rows "1") _ Hin)
    as [[Hnone _] | [_ Hpend]].
  - discriminate Hnone.
  - exact Hpend.
Defined.

(** ** Retrieving a classroom *)

Section RetrieveProperties.

Variable int_of_pk : string -> option Z.

Lemma retrieve_found db user pk cid room :
  int_of_pk pk = Some cid ->
  filter (fun r => ClassRoom.id r =? cid) (class_rooms db) = [room] ->
  retrieve int_of_pk db user pk
  = if nonempty (filter (fun m => (ClassMember.user_id m =? User.id user)
                                  && (ClassMember.class_id m =? cid))
                   (class_members db))
    then Ok (Retrieved HTTP_200_OK
               (mkDetail room (count_students db cid)
                  (List.length
                     (values_annotate_count
                        (map TeamMember.team_id (accepted_team_rows db cid))))))
    else Ok (Refused (mkResponse HTTP_401_UNAUTHORIZED
                        (Details "You are not a member of this class"))).
Proof.
  intros Hpk Hroom. unfold retrieve, prep_pk, get_object_or_404.
  rewrite Hpk. cbn [bind]. rewrite Hroom. cbn [objects_get bind try_except].
  destruct (nonempty _); reflexivity.
Qed.

(** X5: what [retrieve] answers.  A key that is not a number leaves as a
    [ValueError]; a key no classroom has is answered 404; for an existing
    classroom the answer is 401 when the user has no membership row in it
    and 200 with the classroom as soon as the user has one, whatever its
    role and status. *)
Theorem retrieve_outcomes db user pk :
  (int_of_pk pk = None -> retrieve int_of_pk db user pk = Raise ValueError)
  /\ (forall cid,
        int_of_pk pk = Some cid ->
        (filter (fun r => ClassRoom.id r =? cid) (class_rooms db) = [] ->
         retrieve int_of_pk db user pk
         = Ok (Refused (mkResponse HTTP_404_NOT_FOUND (Details "Not Found"))))
        /\ (forall room,
              filter (fun r => ClassRoom.id r =? cid) (class_rooms db) = [room] ->
              ((forall m, In m (class_members db) ->
                          ClassMember.user_id m = User.id user ->
                          ClassMember.class_id m <> cid) ->
               retrieve int_of_pk db user pk
               = Ok (Refused (mkResponse HTTP_401_UNAUTHORIZED
                                (Details "You are not a member of this class"))))
              /\ ((exists m, In m (class_members db)
                             /\ ClassMember.user_id m = User.id user
                             /\ ClassMember.class_id m = cid) ->
                  exists d,
                    retrieve int_of_pk db user pk = Ok (Retrieved HTTP_200_OK d)
                    /\ detail_room d = room))).
Proof.
  split.
  - intros Hpk. unfold retrieve, prep_pk. rewrite Hpk. reflexivity.
  - intros cid Hpk. split.
    + intros Hnone. unfold retrieve, prep_pk. rewrite Hpk. cbn [bind].
      rewrite Hnone. reflexivity.
    + intros room Hroom. rewrite (retrieve_found db user pk cid room Hpk Hroom).
      split.
      * intros Hno.
        destruct (filter _ (class_members db)) as [|m l] eqn:E; [reflexivity|].
        assert (In m (filter (fun m => (ClassMember.user_id m =? User.id user)
                                       && (ClassMember.class_id m =? cid))
                        (class_members db))) as Hin by (rewrite E; left; reflexivity).
        apply filter_In in Hin. destruct Hin as [Hin Hc]. unbool.
        exfalso. exact (Hno m Hin H H0).
      * intros [m [Hm [Hu Hc]]].
        destruct (filter _ (class_members db)) as [|m' l] eqn:E.
        -- assert (In m (filter (fun m => (ClassMember.user_id m =? User.id user)
                                          && (ClassMember.class_id m =? cid))
                           (class_members db))) as Hin.
           { apply filter_In. split; [exact Hm|]. rebool; assumption. }
           rewrite E in Hin. inversion Hin.
        -- eexists. split; reflexivity.
Qed.

(** X6: the counts of a retrieved classroom.  [number_of_students] is the
    number of membership rows of the classroom with role STUDENT and status
    ACCEPTED (the teacher, guests and pending students are not counted);
    [number_of_teams] is the number of distinct teams that have an ACCEPTED
    team member row of a class member of the classroom. *)
Theorem retrieve_counts db user pk cid status d :
  int_of_pk pk = Some cid ->
  retrieve int_of_pk db user pk = Ok (Retrieved status d) ->
  number_of_students d
  = List.length
      (filter (fun m => (ClassMember.class_id m =? cid)
                        && ClassMember.role_eqb (ClassMember.role m) ClassMember.STUDENT
                        && ClassMember.status_eqb (ClassMember.status m) ClassMember.ACCEPTED)
         (class_members db))
  /\ exists teams,
       NoDup teams
       /\ number_of_teams d = List.length teams
       /\ forall tid,
            In tid teams <->
            exists t m, In t (team_members db) /\ In m (class_members db)
                        /\ TeamMember.class_member_id t = ClassMember.id m
                        /\ ClassMember.class_id m = cid
                        /\ TeamMember.status t = TeamMember.ACCEPTED
                        /\ TeamMember.team_id t = tid.
Proof.
  intros Hpk Hr. unfold retrieve, prep_pk in Hr. rewrite Hpk in Hr.
  cbn [bind] in Hr.
  destruct (objects_get _ ClassRoom_DoesNotExist) as [r|e]; cbn [bind try_except] in Hr.
  2:{ destruct e; discriminate Hr. }
  destruct (nonempty _); cbn [negb] in Hr; [|discriminate Hr].
  destruct (get_object_or_404 db (Some cid)) as [instance|e]; cbn [bind] in Hr;
    [|discriminate Hr].
  injection Hr as _ Hd. subst d. cbn [number_of_students number_of_teams]. split.
  - unfold count_students. f_equal. apply filter_ext. intros m.
    destruct (ClassMember.role m); simpl;
      rewrite ?andb_true_r, ?andb_false_r; reflexivity.
  - exists (nodup Z.eq_dec (map TeamMember.team_id (accepted_team_rows db cid))).
    split; [apply NoDup_nodup|]. split.
    + unfold values_annotate_count. apply length_map.
    + intros tid. rewrite nodup_In, in_map_iff. unfold accepted_team_rows. split.
      * intros [t [Htid Hin]]. apply in_flat_map in Hin.
        destruct Hin as [t' [Ht' Hin]]. apply in_map_iff in Hin.
        destruct Hin as [m [E Hm]]. subst t'.
        apply filter_In in Hm. destruct Hm as [Hm Hc]. unbool.
        exists t, m. repeat split; auto.
      * intros [t [m [Ht [Hm [Hfk [Hc [Hs Htid]]]]]]].
        exists t. split; [exact Htid|]. apply in_flat_map. exists t.
        split; [exact Ht|]. apply in_map_iff. exists m. split; [reflexivity|].
        apply filter_In. split; [exact Hm|]. rebool; auto.
Qed.

(** X7: a user whose only membership rows in a classroom are PENDING can
    retrieve the classroom, although [list] does not show it to that
    user. *)
Theorem pending_member_retrieves_unlisted db user pk cid room :
  int_of_pk pk = Some cid ->
  user_fk_ok db = true ->
  User.is_superuser user = false ->
  filter (fun r => ClassRoom.id r =? cid) (class_rooms db) = [room] ->
  (exists m, In m (class_members db)
             /\ ClassMember.user_id m = User.id user
             /\ ClassMember.class_id m = cid) ->
  (forall m, In m (class_members db) ->
             ClassMember.user_id m = User.id user ->
             ClassMember.class_id m = cid ->
             ClassMember.status m = ClassMember.PENDING) ->
  (exists d, retrieve int_of_pk db user pk = Ok (Retrieved HTTP_200_OK d)
             /\ detail_room d = room)
  /\ exists listing,
       list_ db user = Ok (mkResponse HTTP_200_OK (ClassRoomList listing))
       /\ ~ In room (map fst listing).
Proof.
  intros Hpk Hok Hsu Hroom [m [Hm [Hu Hc]]] Hpending. split.
  - rewrite (retrieve_found db user pk cid room Hpk Hroom).
    destruct (filter _ (class_members db)) as [|m' l] eqn:E.
    + assert (In m (filter (fun m => (ClassMember.user_id m =? User.id user)
                                     && (ClassMember.class_id m =? cid))
                      (class_members db))) as Hin.
      { apply filter_In. split; [exact Hm|]. rebool; assumption. }
      rewrite E in Hin. inversion Hin.
    + eexists. split; reflexivity.
  - assert (ClassRoom.id room = cid) as Hid.
    { assert (In room (filter (fun r => ClassRoom.id r =? cid) (class_rooms db)))
        as Hin by (rewrite Hroom; left; reflexivity).
      apply filter_In in Hin. destruct Hin as [_ Hin]. apply Z.eqb_eq. exact Hin. }
    unfold list_. rewrite Hsu. cbn [try_except bind].
    destruct (listing_ok db (list_queryset db user) Hok) as [listing [Hl Hfst]].
    exists listing. rewrite Hl. split; [reflexivity|]. rewrite Hfst.
    intros Hin. apply in_list_queryset in Hin.
    destruct Hin as [_ [m' [Hm' [Hu' [Hc' Hs']]]]].
    rewrite Hid in Hc'. rewrite (Hpending m' Hm' Hu' Hc') in Hs'. discriminate.
Qed.

End RetrieveProperties.

Lemma retrieve_outcomes_witness :
  int_of_digits "2" = Some 2
  /\ filter (fun r => ClassRoom.id r =? 2) (class_rooms db_school) = [room_ma]
  /\ (exists m, In m (class_members db_school)
                /\ ClassMember.user_id m = User.id ana
                /\ ClassMember.class_id m = 2)
  /\ exists d, retrieve int_of_digits db_school ana "2" = Ok (Retrieved HTTP_200_OK d)
               /\ detail_room d = room_ma.
Proof.
  assert (exists m, In m (class_members db_school)
                    /\ ClassMember.user_id m = User.id ana
                    /\ ClassMember.class_id m = 2) as Hm.
  { exists (ClassMember.mk 2 1 2 ClassMember.STUDENT ClassMember.PENDING).
    simpl. auto. }
  split; [reflexivity|]. split; [reflexivity|]. split; [exact Hm|].
  exact (proj2 (proj2 (proj2 (retrieve_outcomes int_of_digits db_school ana "2")
                         2 eq_refl) room_ma eq_refl) Hm).
Defined.

Lemma retrieve_counts_witness :
  int_of_digits "1" = Some 1
  /\ retrieve int_of_digits db_teams ana "1"
     = Ok (Retrieved HTTP_200_OK (mkDetail room_cs 3 1))
  /\ 3%nat
     = List.length
         (filter (fun m => (ClassMember.class_id m =? 1)
                           && ClassMember.role_eqb (ClassMember.role m) ClassMember.STUDENT
                           && ClassMember.status_eqb (ClassMember.status m)
                                ClassMember.ACCEPTED)
            (class_members db_teams)).
Proof.
  split; [reflexivity|]. split; [reflexivity|].
  exact (proj1 (retrieve_counts int_of_digits db_teams ana "1" 1 HTTP_200_OK
                  (mkDetail room_cs 3 1) eq_refl eq_refl)).
Defined.

Lemma pending_member_retrieves_unlisted_witness :
  int_of_digits "2" = Some 2
  /\ user_fk_ok db_school = true
  /\ User.is_superuser ana = false
  /\ filter (fun r => ClassRoom.id r =? 2) (class_rooms db_school) = [room_ma]
  /\ (exists d, retrieve int_of_digits db_school ana "2" = Ok (Retrieved HTTP_200_OK d)
                /\ detail_room d = room_ma)
  /\ exists listing,
       list_ db_school ana = Ok (mkResponse HTTP_200_OK (ClassRoomList listing))
       /\ ~ In room_ma (map fst listing).
Proof.
  split; [reflexivity|]. split; [reflexivity|]. split; [reflexivity|].
  split; [reflexivity|].
  apply (pending_member_retrieves_unlisted int_of_digits db_school ana "2" 2 room_ma
           eq_refl eq_refl eq_refl eq_refl).
  - exists (ClassMember.mk 2 1 2 ClassMember.STUDENT ClassMember.PENDING).
    simpl. auto.
  - intros m Hm Hu Hc. simpl in Hm.
    destruct Hm as [E|[E|[E|[]]]]; subst m; simpl in *; try discriminate; reflexivity.
Defined.

(** ** The rosters [list] adds *)






(** ** The effect of the actions that write *)

(** [join] either leaves the database alone or inserts the row of the
    requesting user. *)
Lemma join_effect db user data_class_code :
  snd (join db user data_class_code) = db
  \/ exists code room,
       data_class_code = Some code
       /\ ClassRoom_get_by_code db code = Ok room
       /\ join db user data_class_code
          = (Ok (mkResponse HTTP_200_OK (Details "Partially joined class")),
             set_class_members db
               (class_members db ++ [joined_row db user room ClassMember.STUDENT])).
Proof.
  destruct data_class_code as [code|]; [|left; reflexivity].
  destruct (memberships_by_code db user code) as [|m l] eqn:E.
  - assert (~ already_member db user code) as Hn.
    { intros Hm. apply memberships_by_code_member in Hm. congruence. }
    destruct (ClassRoom_get_by_code db code) as [room|e] eqn:Hget.
    + right. exists code, room. split; [reflexivity|]. split; [exact Hget|].
      apply (join_new_member db user code room Hn Hget).
    + left. apply (join_no_classroom db user code e Hn Hget).
  - left. unfold join. rewrite E. reflexivity.
Qed.

Lemma join_class_as_guest_effect db user data_class_code data_user_role :
  snd (join_class_as_guest db user data_class_code data_user_role) = db
  \/ exists code room,
       data_class_code = Some code
       /\ ClassRoom_get_by_code db code = Ok room
       /\ join_class_as_guest db user data_class_code data_user_role
          = (Ok (mkResponse HTTP_200_OK (Details "Partially joined the class")),
             set_class_members db
               (class_members db
                ++ [joined_row db user room (guest_role data_user_role)])).
Proof.
  unfold join_class_as_guest.
  destruct data_class_code as [code|]; [|left; reflexivity].
  destruct (negb (truthy (Some code))); [left; reflexivity|].
  destruct (hd_error (memberships_by_code db user code)); [left; reflexivity|].
  destruct (ClassRoom_get_by_code db code) as [room|e] eqn:Hget.
  - right. exists code, room. split; [reflexivity|]. split; [exact Hget|].
    reflexivity.
  - left. destruct e; reflexivity.
Qed.

Lemma inviteToClass_effect db data_classId data_email :
  snd (inviteToClass db data_classId data_email) = db
  \/ exists n email room user,
       data_classId = Some n /\ data_email = Some email
       /\ email <> ""%string
       /\ get_object_or_404 db (Some n) = Ok room
       /\ User_get_by_email db email = Ok user
       /\ inviteToClass db data_classId data_email
          = (Ok (mkResponse HTTP_200_OK
                   (Message (String.append email " invited successfully"))),
             invited_users_add db room user).
Proof.
  destruct data_email as [email|]; [|left; reflexivity].
  destruct (String.eqb email "") eqn:Ee.
  { left. unfold inviteToClass, truthy. rewrite Ee. reflexivity. }
  assert (email <> ""%string) as He.
  { intros E. apply String.eqb_eq in E. congruence. }
  destruct data_classId as [n|].
  2:{ left. unfold inviteToClass. rewrite (truthy_nonempty email He). reflexivity. }
  destruct (get_object_or_404 db (Some n)) as [room|e] eqn:Hget.
  2:{ left. unfold inviteToClass. rewrite (truthy_nonempty email He), Hget.
      reflexivity. }
  destruct (User_get_by_email db email) as [user|e] eqn:Hu.
  - right. exists n, email, room, user.
    split; [reflexivity|]. split; [reflexivity|]. split; [exact He|].
    split; [exact Hget|]. split; [exact Hu|].
    apply (inviteToClass_found db n email room user He Hget Hu).
  - left. unfold inviteToClass. rewrite (truthy_nonempty email He), Hget, Hu.
    destruct e; reflexivity.
Qed.

Section CreateEffect.

Variable is_valid : DB -> ClassRoomFields -> bool.

Lemma create_effect db user request_data :
  snd (create is_valid db user request_data) = db
  \/ exists new_class,
       new_class
       = ClassRoom.mk (next_pk (map ClassRoom.id (class_rooms db)))
           (f_class_code request_data) (f_course_name request_data)
           (f_sections request_data) (f_schedule request_data)
       /\ create is_valid db user request_data
          = (Ok (mkResponse HTTP_201_CREATED (ClassRoomData new_class)),
             mkDB (users db) (class_rooms db ++ [new_class])
               (class_members db
                ++ [ClassMember.mk (next_pk (map ClassMember.id (class_members db)))
                      (User.id user) (ClassRoom.id new_class)
                      ClassMember.TEACHER ClassMember.ACCEPTED])
               (team_members db) (invited_users db)).
Proof.
  destruct (is_valid db request_data) eqn:Hv.
  - right. eexists. split; [reflexivity|].
    apply (create_valid is_valid db user request_data Hv).
  - left. rewrite (create_invalid is_valid db user request_data Hv). reflexivity.
Qed.

End CreateEffect.

(** ** Invariants the writes keep *)

Lemma NoDup_next_pk ids : NoDup ids -> NoDup (ids ++ [next_pk ids]).
Proof.
  intros H. apply NoDup_app; [exact H|repeat constructor; intros []|].
  intros x Hx [E|[]]. subst x. pose proof (next_pk_above ids _ Hx). lia.
Qed.

Lemma keys_unique_new_member db user room role :
  keys_unique db ->
  keys_unique (set_class_members db (class_members db ++ [joined_row db user room role])).
Proof.
  intros [Hr Hm]. split; [exact Hr|]. simpl. rewrite map_app. simpl.
  apply NoDup_next_pk. exact Hm.
Qed.

Lemma keys_unique_invited db room user :
  keys_unique db -> keys_unique (invited_users_add db room user).
Proof.
  unfold invited_users_add. destruct (existsb _ (invited_users db)); auto.
Qed.

Lemma class_fk_ok_new_member db user room role :
  class_fk_ok db = true ->
  In room (class_rooms db) ->
  class_fk_ok
    (set_class_members db (class_members db ++ [joined_row db user room role])) = true.
Proof.
  unfold class_fk_ok. intros Hok Hroom. simpl. rewrite forallb_app, Hok. simpl.
  rewrite andb_true_r. apply existsb_exists. exists room. split; [exact Hroom|].
  apply Z.eqb_refl.
Qed.

Lemma user_fk_ok_new_member db user room role :
  user_fk_ok db = true ->
  user_known db user ->
  user_fk_ok
    (set_class_members db (class_members db ++ [joined_row db user room role])) = true.
Proof.
  unfold user_fk_ok, user_known. intros Hok Hu. simpl. rewrite forallb_app, Hok.
  simpl. rewrite Hu. reflexivity.
Qed.

Lemma fk_ok_invited db room user :
  class_fk_ok (invited_users_add db room user) = class_fk_ok db
  /\ user_fk_ok (invited_users_add db room user) = user_fk_ok db.
Proof.
  unfold invited_users_add. destruct (existsb _ (invited_users db)); auto.
Qed.

Section Invariants.

Variable is_valid : DB -> ClassRoomFields -> bool.

(** X9: the four actions that write keep the primary keys of classrooms
    and of membership rows unique, whatever the request. *)
Theorem writes_keep_keys_unique db user request_data class_code user_role classId email :
  keys_unique db ->
  keys_unique (snd (create is_valid db user request_data))
  /\ keys_unique (snd (join db user class_code))
  /\ keys_unique (snd (join_class_as_guest db user class_code user_role))
  /\ keys_unique (snd (inviteToClass db classId email)).
Proof.
  intros Hk. split; [|split; [|split]].
  - destruct (create_effect is_valid db user request_data) as [E | [c [Ec E]]];
      rewrite E; [exact Hk|]. destruct Hk as [Hr Hm].
    split; simpl; rewrite map_app; simpl.
    + subst c. apply NoDup_next_pk. exact Hr.
    + apply NoDup_next_pk. exact Hm.
  - destruct (join_effect db user class_code) as [E | [c [r [_ [_ E]]]]];
      rewrite E; [exact Hk|]. apply keys_unique_new_member. exact Hk.
  - destruct (join_class_as_guest_effect db user class_code user_role)
      as [E | [c [r [_ [_ E]]]]]; rewrite E; [exact Hk|].
    apply keys_unique_new_member. exact Hk.
  - destruct (inviteToClass_effect db classId email)
      as [E | [n [e [r [u [_ [_ [_ [_ [_ E]]]]]]]]]]; rewrite E; [exact Hk|].
    apply keys_unique_invited. exact Hk.
Qed.

(** X10: the four actions that write keep the foreign keys of the
    membership rows resolvable: when every membership row points to a
    classroom and to exactly one user, and the requesting user is a row of
    the user table, the same holds of the database each action leaves. *)
Theorem writes_keep_foreign_keys db user request_data class_code user_role classId email :
  class_fk_ok db = true ->
  user_fk_ok db = true ->
  user_known db user ->
  (class_fk_ok (snd (create is_valid db user request_data)) = true
   /\ user_fk_ok (snd (create is_valid db user request_data)) = true)
  /\ (class_fk_ok (snd (join db user class_code)) = true
      /\ user_fk_ok (snd (join db user class_code)) = true)
  /\ (class_fk_ok (snd (join_class_as_guest db user class_code user_role)) = true
      /\ user_fk_ok (snd (join_class_as_guest db user class_code user_role)) = true)
  /\ (class_fk_ok (snd (inviteToClass db classId email)) = true
      /\ user_fk_ok (snd (inviteToClass db classId email)) = true).
Proof.
  intros Hc Hu Hknown. repeat split.
  - destruct (create_effect is_valid db user request_data) as [E | [c [Ec E]]];
      rewrite E; [exact Hc|]. unfold class_fk_ok in *. cbn [snd class_members class_rooms].
    rewrite forallb_app. apply andb_true_iff. split.
    + rewrite forallb_forall in *. intros m Hm. specialize (Hc m Hm).
      rewrite existsb_app, Hc. reflexivity.
    + cbn [forallb ClassMember.class_id]. rewrite existsb_app. cbn [existsb].
      rewrite Z.eqb_refl, orb_true_l, orb_true_r. reflexivity.
  - destruct (create_effect is_valid db user request_data) as [E | [c [Ec E]]];
      rewrite E; [exact Hu|]. unfold user_fk_ok, user_known in *.
    cbn [snd class_members users]. rewrite forallb_app, Hu.
    cbn [forallb ClassMember.user_id andb]. rewrite Hknown. reflexivity.
  - destruct (join_effect db user class_code) as [E | [c [r [_ [Hg E]]]]];
      rewrite E; [exact Hc|]. apply class_fk_ok_new_member; [exact Hc|].
    apply (get_by_code_found db c r Hg).
  - destruct (join_effect db user class_code) as [E | [c [r [_ [Hg E]]]]];
      rewrite E; [exact Hu|]. apply user_fk_ok_new_member; assumption.
  - destruct (join_class_as_guest_effect db user class_code user_role)
      as [E | [c [r [_ [Hg E]]]]]; rewrite E; [exact Hc|].
    apply class_fk_ok_new_member; [exact Hc|]. apply (get_by_code_found db c r Hg).
  - destruct (join_class_as_guest_effect db user class_code user_role)
      as [E | [c [r [_ [Hg E]]]]]; rewrite E; [exact Hu|].
    apply user_fk_ok_new_member; assumption.
  - destruct (inviteToClass_effect db classId email)
      as [E | [n [e [r [u [_ [_ [_ [_ [_ E]]]]]]]]]]; rewrite E; [exact Hc|].
    cbn [snd]. rewrite (proj1 (fk_ok_invited db r u)). exact Hc.
  - destruct (inviteToClass_effect db classId email)
      as [E | [n [e [r [u [_ [_ [_ [_ [_ E]]]]]]]]]]; rewrite E; [exact Hu|].
    cbn [snd]. rewrite (proj2 (fk_ok_invited db r u)). exact Hu.
Qed.

End Invariants.

Lemma writes_keep_keys_unique_witness :
  keys_unique db_school
  /\ keys_unique
       (snd (create needs_class_code db_school ben
               (mkFields "PH301" "Physics" "H3" "Sat")))
  /\ keys_unique (snd (join db_school ben (Some "MA201"%string))).
Proof.
  assert (keys_unique db_school) as Hk.
  { split; simpl; repeat constructor; simpl; intuition discriminate. }
  split; [exact Hk|].
  destruct (writes_keep_keys_unique needs_class_code db_school ben
              (mkFields "PH301" "Physics" "H3" "Sat") (Some "MA201"%string)
              None None None Hk) as [Hc [Hj _]].
  split; [exact Hc|exact Hj].
Defined.

Lemma writes_keep_foreign_keys_witness :
  class_fk_ok db_school = true
  /\ user_fk_ok db_school = true
  /\ user_known db_school ben
  /\ class_fk_ok (snd (join_class_as_guest db_school ben (Some "MA201"%string) (Some 1)))
     = true
  /\ user_fk_ok (snd (join_class_as_guest db_school ben (Some "MA201"%string) (Some 1)))
     = true.
Proof.
  split; [reflexivity|]. split; [reflexivity|]. split; [reflexivity|].
  destruct (writes_keep_foreign_keys needs_class_code db_school ben
              (mkFields "PH301" "Physics" "H3" "Sat") (Some "MA201"%string)
              (Some 1) None None eq_refl eq_refl eq_refl) as [_ [_ [Hg _]]].
  exact Hg.
Defined.

(** ** Joining: what is inserted, and when nothing can be *)

Lemma set_class_members_same db : set_class_members db (class_members db ++ []) = db.
Proof. destruct db. unfold set_class_members. simpl. rewrite app_nil_r. reflexivity. Qed.

(** X11: [join] and [join_class_as_guest] never touch a row that exists and
    never write to another table: the database they leave is the one they
    found with at most one membership row appended, a row of the requesting
    user with status PENDING (and role STUDENT for [join]); a row is appended
    only with the answer that says so. *)
Theorem joins_only_append_pending db user class_code user_role :
  (exists added,
     snd (join db user class_code)
     = set_class_members db (class_members db ++ added)
     /\ (List.length added <= 1)%nat
     /\ (forall m, In m added ->
                   ClassMember.user_id m = User.id user
                   /\ ClassMember.role m = ClassMember.STUDENT
                   /\ ClassMember.status m = ClassMember.PENDING)
     /\ (added <> [] ->
         fst (join db user class_code)
         = Ok (mkResponse HTTP_200_OK (Details "Partially joined class"))))
  /\ (exists added,
        snd (join_class_as_guest db user class_code user_role)
        = set_class_members db (class_members db ++ added)
        /\ (List.length added <= 1)%nat
        /\ (forall m, In m added ->
                      ClassMember.user_id m = User.id user
                      /\ ClassMember.role m = guest_role user_role
                      /\ ClassMember.status m = ClassMember.PENDING)
        /\ (added <> [] ->
            fst (join_class_as_guest db user class_code user_role)
            = Ok (mkResponse HTTP_200_OK (Details "Partially joined the class")))).
Proof.
  split.
  - destruct (join_effect db user class_code) as [E | [c [r [_ [_ E]]]]].
    + exists []. rewrite E, set_class_members_same. split; [reflexivity|].
      split; [simpl; lia|]. split; [intros m []|]. intros H. contradiction.
    + eexists. rewrite E. split; [reflexivity|]. split; [simpl; lia|].
      split; [|reflexivity]. intros m [Hm|[]]. subst m. simpl. auto.
  - destruct (join_class_as_guest_effect db user class_code user_role)
      as [E | [c [r [_ [_ E]]]]].
    + exists []. rewrite E, set_class_members_same. split; [reflexivity|].
      split; [simpl; lia|]. split; [intros m []|]. intros H. contradiction.
    + eexists. rewrite E. split; [reflexivity|]. split; [simpl; lia|].
      split; [|reflexivity]. intros m [Hm|[]]. subst m. simpl. auto.
Qed.

(** X12: when two classrooms carry the same class code nobody new can join
    either of them with it: [join] lets [MultipleObjectsReturned] leave and
    [join_class_as_guest] answers 500, and neither inserts a row. *)
Theorem shared_class_code_blocks_joining db user code r1 r2 rest user_role :
  code <> ""%string ->
  ~ already_member db user code ->
  filter (fun r => String.eqb (ClassRoom.class_code r) code) (class_rooms db)
  = r1 :: r2 :: rest ->
  join db user (Some code) = (Raise MultipleObjectsReturned, db)
  /\ join_class_as_guest db user (Some code) user_role
     = (Ok (mkResponse HTTP_500_INTERNAL_SERVER_ERROR (ErrorStr MultipleObjectsReturned)),
        db).
Proof.
  intros Hcode Hn Hrooms.
  assert (ClassRoom_get_by_code db code = Raise MultipleObjectsReturned) as Hget.
  { unfold ClassRoom_get_by_code. rewrite Hrooms. reflexivity. }
  unfold join, join_class_as_guest.
  rewrite (truthy_nonempty code Hcode), (not_member_no_rows db user code Hn), Hget.
  split; reflexivity.
Qed.

Lemma shared_class_code_blocks_joining_witness :
  "CS101"%string <> ""%string
  /\ ~ already_member db_shared_code ana "CS101"
  /\ join db_shared_code ana (Some "CS101"%string)
     = (Raise MultipleObjectsReturned, db_shared_code)
  /\ join_class_as_guest db_shared_code ana (Some "CS101"%string) (Some 2)
     = (Ok (mkResponse HTTP_500_INTERNAL_SERVER_ERROR (ErrorStr MultipleObjectsReturned)),
        db_shared_code).
Proof.
  assert ("CS101"%string <> ""%string) as Hcode by discriminate.
  assert (~ already_member db_shared_code ana "CS101") as Hn.
  { intros Hm. apply memberships_by_code_member in Hm. apply Hm. reflexivity. }
  split; [exact Hcode|]. split; [exact Hn|].
  exact (shared_class_code_blocks_joining db_shared_code ana "CS101" _ _ _ (Some 2)
           Hcode Hn eq_refl).
Defined.

(** X13: the two ways of joining exclude each other.  After [join] has
    inserted its row, [join_class_as_guest] with the same code answers that
    the user has already joined and inserts nothing, whatever [user_role]
    is, and the other way round. *)
Theorem one_membership_by_either_join db user code room user_role :
  code <> ""%string ->
  ~ already_member db user code ->
  ClassRoom_get_by_code db code = Ok room ->
  join_class_as_guest (snd (join db user (Some code))) user (Some code) user_role
  = (Ok (mkResponse HTTP_200_OK (Details "You have already joined the class")),
     snd (join db user (Some code)))
  /\ join (snd (join_class_as_guest db user (Some code) user_role)) user (Some code)
     = (Ok (mkResponse HTTP_200_OK (Details "You already joined the class")),
        snd (join_class_as_guest db user (Some code) user_role)).
Proof.
  intros Hcode Hn Hget. split.
  - rewrite (join_new_member db user code room Hn Hget). cbn [snd].
    pose proof (member_after_join db user code room ClassMember.STUDENT Hget) as Hm.
    apply memberships_by_code_member in Hm.
    unfold join_class_as_guest. rewrite (truthy_nonempty code Hcode). cbn [negb].
    destruct (memberships_by_code _ user code); [contradiction|]. reflexivity.
  - assert (snd (join_class_as_guest db user (Some code) user_role)
            = set_class_members db
                (class_members db ++ [joined_row db user room (guest_role user_role)]))
      as E.
    { unfold join_class_as_guest.
      rewrite (truthy_nonempty code Hcode), (not_member_no_rows db user code Hn), Hget.
      reflexivity. }
    rewrite E. apply join_already_member. apply member_after_join. exact Hget.
Qed.

Lemma one_membership_by_either_join_witness :
  "MA201"%string <> ""%string
  /\ ~ already_member db_school ben "MA201"
  /\ ClassRoom_get_by_code db_school "MA201" = Ok room_ma
  /\ join_class_as_guest (snd (join db_school ben (Some "MA201"%string))) ben
       (Some "MA201"%string) (Some 1)
     = (Ok (mkResponse HTTP_200_OK (Details "You have already joined the class")),
        snd (join db_school ben (Some "MA201"%string))).
Proof.
  assert ("MA201"%string <> ""%string) as Hcode by discriminate.
  assert (~ already_member db_school ben "MA201") as Hn.
  { intros Hm. apply memberships_by_code_member in Hm. apply Hm. reflexivity. }
  split; [exact Hcode|]. split; [exact Hn|]. split; [reflexivity|].
  exact (proj1 (one_membership_by_either_join db_school ben "MA201" room_ma (Some 1)
                  Hcode Hn eq_refl)).
Defined.

(** ** The creator and the new classroom *)

Section Creator.

Variable is_valid : DB -> ClassRoomFields -> bool.
Variable int_of_pk : string -> option Z.

(** X14: once [create] has answered 201 the creator is a member of the new
    classroom for the other actions: [join] with its class code answers
    that the user has already joined and inserts nothing, [retrieve] with
    its key answers 200, and [list] shows it to the creator. *)
Theorem creator_is_member db user request_data new_class :
  is_valid db request_data = true ->
  new_class
  = ClassRoom.mk (next_pk (map ClassRoom.id (class_rooms db)))
      (f_class_code request_data) (f_course_name request_data)
      (f_sections request_data) (f_schedule request_data) ->
  join (snd (create is_valid db user request_data)) user
    (Some (f_class_code request_data))
  = (Ok (mkResponse HTTP_200_OK (Details "You already joined the class")),
     snd (create is_valid db user request_data))
  /\ (forall pk,
        int_of_pk pk = Some (ClassRoom.id new_class) ->
        exists d,
          retrieve int_of_pk (snd (create is_valid db user request_data)) user pk
          = Ok (Retrieved HTTP_200_OK d)
          /\ detail_room d = new_class)
  /\ (user_fk_ok db = true ->
      user_known db user ->
      exists listing,
        list_ (snd (create is_valid db user request_data)) user
        = Ok (mkResponse HTTP_200_OK (ClassRoomList listing))
        /\ In new_class (map fst listing)).
Proof.
  intros Hv Hnew.
  pose proof (create_valid is_valid db user request_data Hv) as Hc.
  cbn zeta in Hc. rewrite <- Hnew in Hc. rewrite Hc. cbn [snd].
  set (teacher := ClassMember.mk (next_pk (map ClassMember.id (class_members db)))
                    (User.id user) (ClassRoom.id new_class)
                    ClassMember.TEACHER ClassMember.ACCEPTED).
  set (db' := mkDB (users db) (class_rooms db ++ [new_class])
                (class_members db ++ [teacher]) (team_members db) (invited_users db)).
  assert (In teacher (class_members db')) as Hteacher
      by (apply in_or_app; right; left; reflexivity).
  assert (In new_class (class_rooms db')) as Hroom
      by (apply in_or_app; right; left; reflexivity).
  split; [|split].
  - apply join_already_member. exists teacher, new_class.
    repeat split; auto. subst new_class. reflexivity.
  - intros pk Hpk.
    assert (filter (fun r => ClassRoom.id r =? ClassRoom.id new_class) (class_rooms db')
            = [new_class]) as Hf.
    { cbn [class_rooms db']. rewrite filter_app. cbn [filter].
      rewrite Z.eqb_refl. subst new_class. cbn [ClassRoom.id].
      rewrite no_room_with_next_pk. reflexivity. }
    rewrite (retrieve_found int_of_pk db' user pk _ new_class Hpk Hf).
    destruct (filter _ (class_members db')) as [|m l] eqn:E.
    + assert (In teacher
                (filter (fun m => (ClassMember.user_id m =? User.id user)
                                  && (ClassMember.class_id m =? ClassRoom.id new_class))
                   (class_members db'))) as Hin.
      { apply filter_In. split; [exact Hteacher|]. rebool; reflexivity. }
      rewrite E in Hin. inversion Hin.
    + eexists. split; reflexivity.
  - intros Hok Hknown.
    assert (user_fk_ok db' = true) as Hok'.
    { unfold user_fk_ok, user_known in *. cbn [class_members users db'].
      rewrite forallb_app, Hok. cbn [forallb ClassMember.user_id teacher andb].
      rewrite Hknown. reflexivity. }
    unfold list_. destruct (User.is_superuser user); cbn [try_except bind].
    + destruct (listing_ok db' (class_rooms db') Hok') as [listing [Hl Hfst]].
      exists listing. rewrite Hl. split; [reflexivity|]. rewrite Hfst. exact Hroom.
    + destruct (listing_ok db' (list_queryset db' user) Hok') as [listing [Hl Hfst]].
      exists listing. rewrite Hl. split; [reflexivity|]. rewrite Hfst.
      apply in_list_queryset. split; [exact Hroom|].
      exists teacher. repeat split; auto.
Qed.

End Creator.

Lemma creator_is_member_witness :
  needs_class_code db_school (mkFields "PH301" "Physics" "H3" "Sat") = true
  /\ join (snd (create needs_class_code db_school ben
                  (mkFields "PH301" "Physics" "H3" "Sat")))
       ben (Some "PH301"%string)
     = (Ok (mkResponse HTTP_200_OK (Details "You already joined the class")),
        snd (create needs_class_code db_school ben
               (mkFields "PH301" "Physics" "H3" "Sat"))).
Proof.
  split; [reflexivity|].
  exact (proj1 (creator_is_member needs_class_code int_of_digits db_school ben
                  (mkFields "PH301" "Physics" "H3" "Sat") _ eq_refl eq_refl)).
Defined.

(** ** Inviting *)

Lemma invited_users_add_again db room user :
  invited_users_add (invited_users_add db room user) room user
  = invited_users_add db room user.
Proof.
  unfold invited_users_add at 1.
  assert (existsb (fun p => (fst p =? ClassRoom.id room) && (snd p =? User.id user))
            (invited_users (invited_users_add db room user)) = true) as E.
  { apply existsb_exists. exists (ClassRoom.id room, User.id user).
    split; [apply invited_after_add|]. simpl. rewrite !Z.eqb_refl. reflexivity. }
  rewrite E. reflexivity.
Qed.

(** X15: inviting is idempotent: a second [inviteToClass] with the same
    request leaves the database exactly as the first one left it, whatever
    the first one answered. *)
Theorem inviteToClass_twice db classId email :
  snd (inviteToClass (snd (inviteToClass db classId email)) classId email)
  = snd (inviteToClass db classId email).
Proof.
  destruct (inviteToClass_effect db classId email)
    as [E | [n [e [room [user [Hc [He [Hne [Hget [Hu E]]]]]]]]]].
  - rewrite E. exact E.
  - rewrite E. cbn [snd]. subst classId email.
    destruct (invited_after_add db room user) as [_ [Husers [Hrooms _]]].
    assert (get_object_or_404 (invited_users_add db room user) (Some n) = Ok room)
      as Hget'.
    { unfold get_object_or_404. rewrite Hrooms. exact Hget. }
    assert (User_get_by_email (invited_users_add db room user) e = Ok user) as Hu'.
    { unfold User_get_by_email. rewrite Husers. exact Hu. }
    rewrite (inviteToClass_found _ n e room user Hne Hget' Hu'). cbn [snd].
    apply invited_users_add_again.
Qed.

(** X16: [inviteToClass] writes to the invitations only: it creates no
    membership row and changes no classroom; it appends at most one pair,
    that of the classroom and the user found by email, and only with the
    answer 200. *)
Theorem inviteToClass_only_invites db classId email :
  exists added,
    snd (inviteToClass db classId email)
    = set_invited_users db (invited_users db ++ added)
    /\ (List.length added <= 1)%nat
    /\ (forall p, In p added ->
                  exists n e room user,
                    classId = Some n /\ email = Some e
                    /\ get_object_or_404 db (Some n) = Ok room
                    /\ User_get_by_email db e = Ok user
                    /\ p = (ClassRoom.id room, User.id user)
                    /\ ~ In p (invited_users db))
    /\ (added <> [] ->
        exists r, fst (inviteToClass db classId email) = Ok r
                  /\ status_code r = HTTP_200_OK).
Proof.
  assert (forall d, set_invited_users d (invited_users d ++ []) = d) as Hsame.
  { intros d. destruct d. unfold set_invited_users. simpl. rewrite app_nil_r.
    reflexivity. }
  destruct (inviteToClass_effect db classId email)
    as [E | [n [e [room [user [Hc [He [Hne [Hget [Hu E]]]]]]]]]].
  - exists []. rewrite E, Hsame. split; [reflexivity|]. split; [simpl; lia|].
    split; [intros p []|]. intros H. contradiction.
  - rewrite E. cbn [snd fst]. unfold invited_users_add.
    destruct (existsb _ (invited_users db)) eqn:Eex.
    + exists []. rewrite Hsame. split; [reflexivity|]. split; [simpl; lia|].
      split; [intros p []|]. intros H. contradiction.
    + exists [(ClassRoom.id room, User.id user)]. split; [reflexivity|].
      split; [simpl; lia|]. split.
      * intros p [Hp|[]]. subst p. exists n, e, room, user.
        repeat (split; [assumption || reflexivity|]).
        intros Hin.
        assert (existsb (fun p => (fst p =? ClassRoom.id room) && (snd p =? User.id user))
                  (invited_users db) = true) as Ht.
        { apply existsb_exists. eexists. split; [exact Hin|]. simpl.
          rewrite !Z.eqb_refl. reflexivity. }
        congruence.
      * intros _. eexists. split; reflexivity.
Qed.

Lemma NoDup_all_equal {A} (a : A) l :
  NoDup l -> (forall x, In x l -> x = a) -> (List.length l <= 1)%nat.
Proof.
  intros Hnd Hall. destruct l as [|x [|y l]]; simpl; try lia.
  inversion Hnd as [|? ? Hnin _]; subst. exfalso. apply Hnin. left.
  rewrite (Hall x), (Hall y); simpl; auto.
Qed.

Lemma NoDup_invited_classrooms db user :
  NoDup (class_rooms db) -> NoDup (invited_users db) ->
  NoDup (invited_classrooms db user).
Proof.
  intros Hrooms Hinv. unfold invited_classrooms. apply NoDup_filter.
  induction (class_rooms db) as [|r l IH]; [constructor|].
  inversion Hrooms as [|? ? Hnin Hnd]; subst. cbn [flat_map].
  assert (forall x, In x (flat_map
                           (fun r => map (fun _ => r)
                              (filter (fun p => (fst p =? ClassRoom.id r)
                                                && (snd p =? User.id user))
                                 (invited_users db))) l) -> In x l) as Hsub.
  { intros x Hx. apply in_flat_map in Hx. destruct Hx as [r' [Hr' Hx]].
    apply in_map_iff in Hx. destruct Hx as [p [E _]]. subst. exact Hr'. }
  assert (Nat.le (List.length (filter (fun p => (fst p =? ClassRoom.id r)
                                                && (snd p =? User.id user))
                                 (invited_users db))) 1) as Hlen.
  { apply (NoDup_all_equal (ClassRoom.id r, User.id user)).
    - apply NoDup_filter. exact Hinv.
    - intros [c u] Hp. apply filter_In in Hp. destruct Hp as [_ Hp]. simpl in Hp.
      unbool. subst. reflexivity. }
  destruct (filter _ (invited_users db)) as [|p [|q ps]]; simpl in Hlen; try lia.
  - simpl. apply IH. exact Hnd.
  - simpl. constructor; [|apply IH; exact Hnd].
    intros Hin. apply Hnin. apply Hsub. exact Hin.
Qed.

(** X17: invitations are not repeated.  [inviteToClass] keeps the
    invitation pairs distinct, and when they are, and the classroom rows
    are, [get_invited_classes] returns no classroom twice. *)
Theorem invitations_without_repetition db classId email data_email :
  NoDup (invited_users db) ->
  NoDup (invited_users (snd (inviteToClass db classId email)))
  /\ (NoDup (class_rooms db) ->
      NoDup (returned_classes (get_invited_classes db data_email))).
Proof.
  intros Hinv. split.
  - destruct (inviteToClass_effect db classId email)
      as [E | [n [e [room [user [_ [_ [_ [_ [_ E]]]]]]]]]]; rewrite E; [exact Hinv|].
    cbn [snd]. unfold invited_users_add.
    destruct (existsb _ (invited_users db)) eqn:Eex; [exact Hinv|].
    cbn [invited_users set_invited_users]. apply NoDup_app; [exact Hinv| |].
    + repeat constructor. intros [].
    + intros p Hp [Hq|[]]. subst p.
      assert (existsb (fun p => (fst p =? ClassRoom.id room) && (snd p =? User.id user))
                (invited_users db) = true) as Ht.
      { apply existsb_exists. eexists. split; [exact Hp|]. simpl.
        rewrite !Z.eqb_refl. reflexivity. }
      congruence.
  - intros Hrooms. unfold get_invited_classes.
    destruct data_email as [e|]; [|constructor].
    destruct (negb (truthy (Some e))); [constructor|].
    destruct (User_get_by_email db e) as [user|x]; [|destruct x; constructor].
    destruct (negb (nonempty (invited_classrooms db user))); [constructor|].
    cbn [returned_classes]. apply NoDup_invited_classrooms; assumption.
Qed.

Lemma invitations_without_repetition_witness :
  NoDup (invited_users db_school)
  /\ NoDup (class_rooms db_school)
  /\ NoDup (invited_users
              (snd (inviteToClass db_school (Some 1) (Some "ben@example.org"%string))))
  /\ NoDup (returned_classes
              (get_invited_classes db_school (Some "ben@example.org"%string))).
Proof.
  assert (NoDup (invited_users db_school)) as Hinv.
  { simpl. repeat constructor; simpl; intuition discriminate. }
  assert (NoDup (class_rooms db_school)) as Hrooms.
  { simpl. repeat constructor; simpl; intuition discriminate. }
  split; [exact Hinv|]. split; [exact Hrooms|].
  destruct (invitations_without_repetition db_school (Some 1)
              (Some "ben@example.org"%string) (Some "ben@example.org"%string) Hinv)
    as [H1 H2].
  split; [exact H1|exact (H2 Hrooms)].
Defined.

(** X18: the refusals of [get_invited_classes].  It answers 400 exactly
    when the email is absent or empty; for an email that is given, it
    answers 404 "User not found." exactly when no user has it, and
    [MultipleObjectsReturned] leaves the action exactly when several users
    share it. *)
Theorem get_invited_classes_refusals db data_email :
  ((exists body,
      get_invited_classes db data_email = Ok (mkResponse HTTP_400_BAD_REQUEST body))
   <-> truthy data_email = false)
  /\ (forall email,
        data_email = Some email -> email <> ""%string ->
        (get_invited_classes db data_email
         = Ok (mkResponse HTTP_404_NOT_FOUND (Error "User not found."))
         <-> filter (fun u => String.eqb (User.email u) email) (users db) = [])
        /\ (get_invited_classes db data_email = Raise MultipleObjectsReturned
            <-> exists u1 u2 rest,
                  filter (fun u => String.eqb (User.email u) email) (users db)
                  = u1 :: u2 :: rest)).
Proof.
  split.
  - unfold get_invited_classes. destruct data_email as [email|].
    + destruct (truthy (Some email)) eqn:Et; cbn [negb].
      * split; [|discriminate]. intros [body H].
        unfold User_get_by_email, objects_get in H.
        destruct (filter _ (users db)) as [|u [|u' l]]; try discriminate H.
        destruct (negb (nonempty (invited_classrooms db u))); discriminate H.
      * split; [reflexivity|]. intros _. eexists. reflexivity.
    + split; [reflexivity|]. intros _. eexists. reflexivity.
  - intros email E He. subst data_email. unfold get_invited_classes.
    rewrite (truthy_nonempty email He). cbn [negb].
    unfold User_get_by_email, objects_get.
    destruct (filter _ (users db)) as [|u [|u' l]].
    + split; split; try reflexivity; try discriminate.
      intros [u1 [u2 [rest H]]]. discriminate H.
    + split; split; try discriminate.
      * destruct (negb (nonempty (invited_classrooms db u))); discriminate.
      * destruct (negb (nonempty (invited_classrooms db u))); discriminate.
      * intros [u1 [u2 [rest H]]]. discriminate H.
    + split; split; try discriminate; try reflexivity.
      intros _. eauto.
Qed.

Lemma get_invited_classes_refusals_witness :
  "nobody@example.org"%string <> ""%string
  /\ filter (fun u => String.eqb (User.email u) "nobody@example.org") (users db_school)
     = []
  /\ get_invited_classes db_school (Some "nobody@example.org"%string)
     = Ok (mkResponse HTTP_404_NOT_FOUND (Error "User not found.")).
Proof.
  assert ("nobody@example.org"%string <> ""%string) as He by discriminate.
  split; [exact He|]. split; [reflexivity|].
  apply (proj1 (proj2 (get_invited_classes_refusals db_school
                         (Some "nobody@example.org"%string))
                  "nobody@example.org"%string eq_refl He)).
  reflexivity.
Defined.
